(** * youtube-video-to-tweet MCP server: a shallow embedding

    The development follows the TypeScript modules of the server:
    - [TweetGenerationService]  (services/tweet-generation-service.ts)
    - [YouTubeService]          (services/youtube-service.ts)
    - [TypefullyService]        (services/typefully-service.ts)
    - the dispatcher            (mcp-server.ts): zod schemas, the
      [CallToolRequestSchema] handler and process start-up.

    JavaScript strings are sequences of UTF-16 code units, and the regular
    expressions of the source (none carries the [u] or [i] flag) work on code
    units; a string is therefore a [list N].  Exceptions and the calls made to
    the services are threaded through a small monad [M]. *)

From Stdlib Require Import QArith Ascii String.
From stdpp Require Import base option list gmap.

Local Open Scope N_scope.
Local Open Scope list_scope.

(** ** JavaScript strings *)

Abbreviation jsstring := (list N).

(** An ASCII literal as a JavaScript string. *)
Definition js (s : string) : jsstring :=
  map N_of_ascii (list_ascii_of_string s).

Definition LF : N := 10.
Definition CR : N := 13.
Definition TAB : N := 9.
Definition SP : N := 32.
Definition DQUOTE : N := 34.

Definition code_in (lo hi c : N) : bool := (lo <=? c) && (c <=? hi).

(** [WhiteSpace] and [LineTerminator] of ECMAScript: what [\s] matches and
    what [String.prototype.trim] strips. *)
Definition isWhiteSpace (c : N) : bool :=
  code_in 9 13 c || (c =? 32) || (c =? 0xA0) || (c =? 0x1680)
  || code_in 0x2000 0x200A c || (c =? 0x2028) || (c =? 0x2029)
  || (c =? 0x202F) || (c =? 0x205F) || (c =? 0x3000) || (c =? 0xFEFF).

(** [\w] without the [u] and [i] flags: [[A-Za-z0-9_]]. *)
Definition isWordChar (c : N) : bool :=
  code_in 65 90 c || code_in 97 122 c || code_in 48 57 c || (c =? 95).

Fixpoint trimStart (s : jsstring) : jsstring :=
  match s with
  | [] => []
  | c :: r => if isWhiteSpace c then trimStart r else s
  end.

Definition trimEnd (s : jsstring) : jsstring := rev (trimStart (rev s)).

(** [String.prototype.trim] *)
Definition trim (s : jsstring) : jsstring := trimEnd (trimStart s).

(** [s.startsWith(p)] *)
Fixpoint startsWith (p s : jsstring) : bool :=
  match p, s with
  | [], _ => true
  | _ :: _, [] => false
  | a :: p', b :: s' => (a =? b) && startsWith p' s'
  end.

(** [s.includes(sub)] *)
Fixpoint includes (sub s : jsstring) : bool :=
  startsWith sub s ||
  match s with
  | [] => false
  | _ :: r => includes sub r
  end.

(** [l.join(sep)] on an array of strings *)
Fixpoint join (sep : jsstring) (l : list jsstring) : jsstring :=
  match l with
  | [] => []
  | [x] => x
  | x :: r => x ++ sep ++ join sep r
  end.

(** [s.replace(/\s+/g, " ")]: every maximal run of white space becomes one
    space.  The space is emitted at the last character of the run. *)
Fixpoint replaceWhiteSpaceRuns (s : jsstring) : jsstring :=
  match s with
  | [] => []
  | c :: r =>
      if isWhiteSpace c then
        match r with
        | [] => [SP]
        | c' :: _ =>
            if isWhiteSpace c' then replaceWhiteSpaceRuns r
            else SP :: replaceWhiteSpaceRuns r
        end
      else c :: replaceWhiteSpaceRuns r
  end.

(** Decimal rendering of a natural number, as [String(n)] gives it. *)
Fixpoint digits_fuel (fuel : nat) (n : N) (acc : jsstring) : jsstring :=
  match fuel with
  | O => acc
  | S f =>
      let acc' := (48 + n mod 10) :: acc in
      if n / 10 =? 0 then acc' else digits_fuel f (n / 10) acc'
  end.

Definition natToString (n : nat) : jsstring :=
  digits_fuel (S n) (N.of_nat n) [].

(** ** TweetGenerationService *)

Module TweetGenerationService.

Inductive Format := thread | single.
Inductive Style := conversational | informative | engaging | professional.

Definition Format_eqb (a b : Format) : bool :=
  match a, b with
  | thread, thread | single, single => true
  | _, _ => false
  end.

Definition styleString (s : Style) : jsstring :=
  match s with
  | conversational => js "conversational"
  | informative => js "informative"
  | engaging => js "engaging"
  | professional => js "professional"
  end.

(** [TweetGenerationOptions]: every field is optional. *)
Record TweetGenerationOptions := {
  opt_maxTweets : option Q;
  opt_includeCallToAction : option bool;
  opt_style : option Style;
  opt_includeEmojis : option bool;
  opt_format : option Format;
}.

Record TweetGenerationContext := {
  transcript : jsstring;
  prompt : jsstring;
  format : Format;
  style : Style;
  maxTweets : Q;
  includeEmojis : bool;
  includeCallToAction : bool;
  systemPrompt : jsstring;
  instructions : jsstring;
}.

(** The character class [[^\w\s.,!?-]] of [cleanTranscript], negated: the
    characters that survive. *)
Definition isKept (c : N) : bool :=
  isWordChar c || isWhiteSpace c
  || (c =? 46) || (c =? 44) || (c =? 33) || (c =? 63) || (c =? 45).

Definition cleanTranscript (transcript : jsstring) : jsstring :=
  trim (List.filter isKept (replaceWhiteSpaceRuns transcript)).

Definition styleGuidelines (s : Style) : jsstring :=
  match s with
  | engaging =>
      js "Create tweets that are exciting, thought-provoking, and designed to spark discussion. Use dynamic language and compelling hooks."
  | professional =>
      js "Create tweets that are authoritative, informative, and suitable for a business audience. Maintain a polished tone while being accessible."
  | conversational =>
      js "Create tweets that feel like natural conversation starters. Use casual language and relatable scenarios."
  | informative =>
      js "Create tweets that focus on educating and sharing valuable insights. Prioritize clarity and usefulness."
  end.

Section WithNumberRendering.

(** [String(x)] for a number: the rendering of a double is the engine's and
    is taken as given. *)
Variable numberToString : Q -> jsstring.

Definition generatePromptAndInstructions
    (format : Format) (style : Style) (maxTweets : Q) (userPrompt : jsstring)
    (includeEmojis includeCallToAction : bool) : jsstring * jsstring :=
  let basePrompt :=
    js "You are an expert social media content creator specializing in creating "
    ++ styleString style
    ++ js " tweets that start conversations and drive engagement." in
  let formatGuidelines :=
    if Format_eqb format single
    then js "You will create ONE single tweet that must stay within 280 characters including all text, emojis, and spacing."
    else js "You will create a tweet thread. Each tweet in the thread must stay within 280 characters." in
  let emojiGuideline :=
    if includeEmojis
    then js "Include relevant emojis to enhance engagement and visual appeal, but use them strategically."
    else js "Do not include any emojis in the tweets." in
  let ctaGuideline :=
    if includeCallToAction
    then js "Include calls-to-action that encourage replies, engagement, and discussion."
    else js "Focus on delivering value without explicit calls-to-action." in
  let systemPrompt :=
    basePrompt ++ [LF; LF]
    ++ js "STYLE: " ++ styleGuidelines style ++ [LF; LF]
    ++ js "FORMAT: " ++ formatGuidelines ++ [LF; LF]
    ++ js "EMOJIS: " ++ emojiGuideline ++ [LF; LF]
    ++ js "ENGAGEMENT: " ++ ctaGuideline ++ [LF; LF]
    ++ js "IMPORTANT: Every tweet must be under 280 characters. Count characters carefully including spaces and emojis." in
  let formatInstructions :=
    if Format_eqb format single
    then
      js "Create ONE compelling tweet that captures the essence of the content. The tweet must:" ++ [LF]
      ++ js "- Stay within 280 characters (this is critical)" ++ [LF]
      ++ js "- Be self-contained and impactful" ++ [LF]
      ++ js "- Include the most important insight or takeaway" ++ [LF]
      ++ js "- End with a question or statement that encourages engagement"
    else
      js "Create a tweet thread with " ++ numberToString maxTweets
      ++ js " tweets maximum. The thread should:" ++ [LF]
      ++ js "- Start with an engaging hook tweet that introduces the topic" ++ [LF]
      ++ js "- Break down key insights across subsequent tweets" ++ [LF]
      ++ js "- End with a call-to-action that encourages discussion" ++ [LF]
      ++ js "- Each tweet must stay within 280 characters" ++ [LF]
      ++ js "- Use (1/n), (2/n) format to indicate thread position" in
  let instructions :=
    userPrompt ++ [LF; LF]
    ++ formatInstructions ++ [LF; LF]
    ++ js "Base your tweets on the provided transcript content. Extract the most valuable insights and present them in a way that will start conversations and provide value to readers."
    ++ [LF; LF]
    ++ js "Remember: Character count is critical. Each tweet MUST be under 280 characters." in
  (systemPrompt, instructions).

Definition generateTweetContext
    (transcript prompt : jsstring) (options : TweetGenerationOptions)
    : TweetGenerationContext :=
  let maxTweets := default 5%Q (opt_maxTweets options) in
  let includeCallToAction := default true (opt_includeCallToAction options) in
  let style := default engaging (opt_style options) in
  let includeEmojis := default true (opt_includeEmojis options) in
  let format := default thread (opt_format options) in
  let cleanTranscript := cleanTranscript transcript in
  let '(systemPrompt, instructions) :=
    generatePromptAndInstructions
      format style maxTweets prompt includeEmojis includeCallToAction in
  {| transcript := cleanTranscript;
     prompt := prompt;
     format := format;
     style := style;
     maxTweets := if Format_eqb format single then 1%Q else maxTweets;
     includeEmojis := includeEmojis;
     includeCallToAction := includeCallToAction;
     systemPrompt := systemPrompt;
     instructions := instructions |}.

End WithNumberRendering.

End TweetGenerationService.

(** ** Exceptions and the call trace *)

(** A thrown value: an [Error] instance with its message, or anything else
    ([error instanceof Error] is what the handlers test). *)
Inductive thrown :=
  | ErrorObject (message : jsstring)
  | NonErrorValue.

Inductive completion (A : Type) :=
  | Normal (a : A)
  | Abrupt (e : thrown).
Arguments Normal {A} a.
Arguments Abrupt {A} e.

(** ** Untyped data *)

(** A JSON value, as the arguments of a tool call arrive.  Numbers are the
    finite doubles, each a rational; an absent field reads as [undefined],
    here [None]. *)
#[warnings="-register-all"] Inductive value :=
  | VNull
  | VBool (b : bool)
  | VNum (q : Q)
  | VStr (s : jsstring)
  | VArr (l : list value)
  | VObj (fields : gmap jsstring value).

(** JavaScript's truthiness, on a JSON value. *)
Definition isTruthy (v : value) : bool :=
  match v with
  | VNull => false
  | VBool b => b
  | VNum q => negb (Qeq_bool q 0)
  | VStr [] => false
  | VStr (_ :: _) => true
  | VArr _ | VObj _ => true
  end.

(** [String(v)], as a template literal renders a JSON value: an array is its
    elements joined by commas, a [null] element giving nothing, and a plain
    object is [[object Object]].  The rendering of numbers is the engine's. *)
Fixpoint valueToString (numberToString : Q -> jsstring) (v : value) : jsstring :=
  match v with
  | VNull => js "null"
  | VBool true => js "true"
  | VBool false => js "false"
  | VNum q => numberToString q
  | VStr s => s
  | VArr l =>
      let element (x : value) : jsstring :=
        match x with
        | VNull => []
        | _ => valueToString numberToString x
        end in
      (fix joinElements (l : list value) : jsstring :=
         match l with
         | [] => []
         | [x] => element x
         | x :: r => element x ++ js "," ++ joinElements r
         end) l
  | VObj _ => js "[object Object]"
  end.

(** ** Collaborator data *)

Record TranscriptSegment := {
  seg_text : jsstring;
  seg_duration : Q;
  seg_offset : Q;
  seg_lang : jsstring;
}.

Record TranscriptResponse := {
  lang : jsstring;
  availableLangs : list jsstring;
  content : list TranscriptSegment;
}.

Record TypefullyDraftResponse := {
  id : jsstring;
  draft_content : jsstring;
  status : jsstring;
  created_at : jsstring;
  scheduled_at : option jsstring;
  share_url : option jsstring;
}.

(** What an axios call can end in: the response body (taken at the type the
    service declares for it), an axios error (with the parts of it the
    services read), or some other thrown value.  The body of an error
    response is untyped: [response_data_message] and [response_data_error]
    are whatever [error.response?.data?.message] and
    [error.response?.data?.error] evaluate to, [None] for [undefined]. *)
Record AxiosError := {
  response_status : option nat;
  response_data_message : option value;
  response_data_error : option value;
  axios_message : jsstring;
}.

Inductive AxiosResult (A : Type) :=
  | AxiosData (data : A)
  | AxiosFailed (error : AxiosError)
  | OtherFailure (e : thrown).
Arguments AxiosData {A} data.
Arguments AxiosFailed {A} error.
Arguments OtherFailure {A} e.

(** [o || d] for an optional string: the empty string is falsy too. *)
Definition orElse (o : option jsstring) (d : jsstring) : jsstring :=
  match o with
  | Some (c :: r) => c :: r
  | _ => d
  end.

(** [${o || d}] for an untyped [o]: any truthy value is kept and rendered. *)
Definition orElseValue (numberToString : Q -> jsstring)
    (o : option value) (d : jsstring) : jsstring :=
  match o with
  | Some v => if isTruthy v then valueToString numberToString v else d
  | None => d
  end.

(** ** The runtime the server runs on

    Everything the source obtains from outside the repository: the engine's
    rendering of numbers and dates, zod's rendering of its issues into the
    message of a [ZodError], and the two HTTP endpoints reached through axios
    (given the API key sent in the headers and the request data). *)

Inductive ZodIssueCode := invalid_type | too_small | too_big | invalid_enum_value.

Record ZodIssue := {
  code : ZodIssueCode;
  path : list jsstring;
}.

Record DraftPayload := {
  payload_content : jsstring;
  payload_threadify : option bool;
  payload_share : option bool;
  payload_schedule_date : option jsstring;
  payload_auto_retweet_enabled : option bool;
  payload_auto_plug_enabled : option bool;
}.

Record Runtime := {
  numberToString : Q -> jsstring;
  dateToLocaleString : jsstring -> jsstring;
  zodErrorMessage : list ZodIssue -> jsstring;
  axios_get_transcript : jsstring -> jsstring -> AxiosResult TranscriptResponse;
  axios_post_drafts : jsstring -> DraftPayload -> AxiosResult TypefullyDraftResponse;
}.

(** [process.env] *)
Abbreviation environment := (gmap jsstring jsstring).

(** ** YouTubeService *)

Module YouTubeService.

Record t := { apiKey : jsstring }.

(** The constructor only warns (on stderr) when the key is missing. *)
Definition new (env : environment) : t :=
  {| apiKey := orElse (env !! js "SUPADATA_API_KEY") [] |}.

(** The alternatives of the first pattern,
    [(?:youtube\.com\/watch\?v=|youtu\.be\/|youtube\.com\/embed\/)]. *)
Definition urlShapes : list jsstring :=
  [ js "youtube.com/watch?v="; js "youtu.be/"; js "youtube.com/embed/" ].

(** The class [[^&\n?#]] of the capture group, negated. *)
Definition isIdStop (c : N) : bool :=
  (c =? 38) || (c =? 10) || (c =? 63) || (c =? 35).

Fixpoint captureId (s : jsstring) : jsstring :=
  match s with
  | [] => []
  | c :: r => if isIdStop c then [] else c :: captureId r
  end.

(** The first pattern tried at the start of [s]: the alternatives in order,
    each followed by the longest non-empty run of [[^&\n?#]]. *)
Fixpoint matchShapesAt (shapes : list jsstring) (s : jsstring) : option jsstring :=
  match shapes with
  | [] => None
  | p :: shapes' =>
      if startsWith p s then
        match captureId (drop (length p) s) with
        | [] => matchShapesAt shapes' s
        | c :: r => Some (c :: r)
        end
      else matchShapesAt shapes' s
  end.

(** [url.match(pattern1)]: the leftmost position where the pattern matches. *)
Fixpoint matchUrlPattern (s : jsstring) : option jsstring :=
  match matchShapesAt urlShapes s with
  | Some id => Some id
  | None =>
      match s with
      | [] => None
      | _ :: r => matchUrlPattern r
      end
  end.

(** [[a-zA-Z0-9_-]] *)
Definition isIdChar (c : N) : bool := isWordChar c || (c =? 45).

(** [url.match(/^([a-zA-Z0-9_-]{11})$/)] *)
Definition matchBareId (s : jsstring) : option jsstring :=
  if (length s =? 11)%nat && forallb isIdChar s then Some s else None.

Definition extractVideoId (url : jsstring) : completion jsstring :=
  match matchUrlPattern url with
  | Some id => Normal id
  | None =>
      match matchBareId url with
      | Some id => Normal id
      | None => Abrupt (ErrorObject (js "Invalid YouTube URL or video ID"))
      end
  end.

Definition getTranscript (rt : Runtime) (self : t) (videoId : jsstring)
    : completion TranscriptResponse :=
  match axios_get_transcript rt (apiKey self) videoId with
  | AxiosData data => Normal data
  | AxiosFailed error =>
      Abrupt (ErrorObject
        (js "Failed to fetch transcript: "
         ++ orElseValue (numberToString rt)
              (response_data_message error) (axios_message error)))
  | OtherFailure e => Abrupt e
  end.

Definition transcriptToText (transcript : TranscriptResponse) : jsstring :=
  trim (replaceWhiteSpaceRuns (join [SP] (map seg_text (content transcript)))).

End YouTubeService.

(** ** TypefullyService *)

Module TypefullyService.

Record t := { apiKey : jsstring }.

(** The constructor throws when the key is missing or empty. *)
Definition new (env : environment) : completion t :=
  match orElse (env !! js "TYPEFULLY_API_KEY") [] with
  | [] => Abrupt (ErrorObject (js "TYPEFULLY_API_KEY environment variable is required"))
  | k => Normal {| apiKey := k |}
  end.

Record DraftOptions := {
  threadify : option bool;
  scheduleDate : option jsstring;
  share : option bool;
  autoRetweetEnabled : option bool;
  autoPlugEnabled : option bool;
}.

Definition buildPayload (content : jsstring) (options : DraftOptions) : DraftPayload :=
  {| payload_content := content;
     payload_threadify := threadify options;
     payload_share := share options;
     payload_schedule_date :=
       match scheduleDate options with
       | Some (c :: r) => Some (c :: r)
       | _ => None
       end;
     payload_auto_retweet_enabled := autoRetweetEnabled options;
     payload_auto_plug_enabled := autoPlugEnabled options |}.

Definition statusString (s : option nat) : jsstring :=
  match s with
  | Some n => natToString n
  | None => js "undefined"
  end.

Definition createDraft (rt : Runtime) (self : t)
    (content : jsstring) (options : DraftOptions)
    : completion TypefullyDraftResponse :=
  match axios_post_drafts rt (apiKey self) (buildPayload content options) with
  | AxiosData data => Normal data
  | AxiosFailed error =>
      Abrupt (ErrorObject
        (js "Typefully API error: " ++ statusString (response_status error)
         ++ js " - "
         ++ orElseValue (numberToString rt)
              (response_data_error error) (axios_message error)))
  | OtherFailure e => Abrupt e
  end.

End TypefullyService.

(** ** Untyped arguments and their validation (zod) *)

Inductive ZodResult (A : Type) :=
  | ZodOk (a : A)
  | ZodFail (issues : list ZodIssue).
Arguments ZodOk {A} a.
Arguments ZodFail {A} issues.

Module z.

Definition issue (c : ZodIssueCode) (p : list jsstring) : list ZodIssue :=
  [ {| code := c; path := p |} ].

(** A schema reads the value found at [path] ([None] for [undefined]). *)
Definition schema (A : Type) := list jsstring -> option value -> ZodResult A.

(** [z.string().min(n)]; [z.string()] is [string 0]. *)
Definition string (min : nat) : schema jsstring := fun p v =>
  match v with
  | Some (VStr s) =>
      if (length s <? min)%nat then ZodFail (issue too_small p) else ZodOk s
  | _ => ZodFail (issue invalid_type p)
  end.

(** [z.number().min(lo).max(hi)] *)
Definition number (lo hi : Q) : schema Q := fun p v =>
  match v with
  | Some (VNum q) =>
      if negb (Qle_bool lo q) then ZodFail (issue too_small p)
      else if negb (Qle_bool q hi) then ZodFail (issue too_big p)
      else ZodOk q
  | _ => ZodFail (issue invalid_type p)
  end.

(** [z.boolean()] *)
Definition boolean : schema bool := fun p v =>
  match v with
  | Some (VBool b) => ZodOk b
  | _ => ZodFail (issue invalid_type p)
  end.

Fixpoint findEnum {A} (options : list (jsstring * A)) (s : jsstring) : option A :=
  match options with
  | [] => None
  | (k, a) :: r => if decide (k = s) then Some a else findEnum r s
  end.

(** [z.enum([...])], each literal paired with the value it stands for. *)
Definition enum {A} (options : list (jsstring * A)) : schema A := fun p v =>
  match v with
  | Some (VStr s) =>
      match findEnum options s with
      | Some a => ZodOk a
      | None => ZodFail (issue invalid_enum_value p)
      end
  | _ => ZodFail (issue invalid_type p)
  end.

(** [.optional()] *)
Definition optional {A} (s : schema A) : schema (option A) := fun p v =>
  match v with
  | None => ZodOk None
  | Some _ =>
      match s p v with
      | ZodOk a => ZodOk (Some a)
      | ZodFail i => ZodFail i
      end
  end.

(** One key of a [z.object] shape, read from the input object. *)
Definition field {A} (key : jsstring) (s : schema A)
    (input : gmap jsstring value) : ZodResult A :=
  s [key] (input !! key).

(** The issues of all keys are collected, in the order of the shape. *)
Definition ap {A B} (f : ZodResult (A -> B)) (a : ZodResult A) : ZodResult B :=
  match f, a with
  | ZodOk f, ZodOk a => ZodOk (f a)
  | ZodOk _, ZodFail j => ZodFail j
  | ZodFail i, ZodOk _ => ZodFail i
  | ZodFail i, ZodFail j => ZodFail (i ++ j)
  end.

(** [z.object(shape)]: the input must be an object; only the keys of the
    shape are read, so unknown keys are stripped from the result. *)
Definition object {A} (shape : gmap jsstring value -> ZodResult A)
    (input : option value) : ZodResult A :=
  match input with
  | Some (VObj fields) => shape fields
  | _ => ZodFail (issue invalid_type [])
  end.

End z.

Import TweetGenerationService.

Record YouTubeTranscriptArgs := { videoUrl : jsstring }.

Definition YouTubeTranscriptSchema (args : option value)
    : ZodResult YouTubeTranscriptArgs :=
  z.object (fun o =>
    z.ap (ZodOk Build_YouTubeTranscriptArgs)
         (z.field (js "videoUrl") (z.string 1) o)) args.

Record GenerateTweetsArgs := {
  arg_transcript : jsstring;
  arg_prompt : jsstring;
  arg_maxTweets : option Q;
  arg_style : option Style;
  arg_format : option Format;
}.

Definition GenerateTweetsSchema (args : option value)
    : ZodResult GenerateTweetsArgs :=
  z.object (fun o =>
    z.ap (z.ap (z.ap (z.ap (z.ap (ZodOk Build_GenerateTweetsArgs)
      (z.field (js "transcript") (z.string 1) o))
      (z.field (js "prompt") (z.string 1) o))
      (z.field (js "maxTweets") (z.optional (z.number 1 10)) o))
      (z.field (js "style")
         (z.optional (z.enum [ (js "conversational", conversational);
                               (js "informative", informative);
                               (js "engaging", engaging);
                               (js "professional", professional) ])) o))
      (z.field (js "format")
         (z.optional (z.enum [ (js "thread", thread);
                               (js "single", single) ])) o)) args.

Record CreateDraftArgs := {
  arg_content : jsstring;
  arg_threadify : option bool;
  arg_scheduleDate : option jsstring;
  arg_share : option bool;
}.

Definition CreateDraftSchema (args : option value) : ZodResult CreateDraftArgs :=
  z.object (fun o =>
    z.ap (z.ap (z.ap (z.ap (ZodOk Build_CreateDraftArgs)
      (z.field (js "content") (z.string 0) o))
      (z.field (js "threadify") (z.optional z.boolean) o))
      (z.field (js "scheduleDate") (z.optional (z.string 0)) o))
      (z.field (js "share") (z.optional z.boolean) o)) args.

(** ** The dispatcher monad: exceptions and the trace of service calls *)

(** One entry per method of a service object that the dispatcher invokes. *)
Inductive ServiceCall :=
  | Call_extractVideoId (url : jsstring)
  | Call_getTranscript (videoId : jsstring)
  | Call_transcriptToText (transcript : TranscriptResponse)
  | Call_generateTweetContext
      (transcript prompt : jsstring) (options : TweetGenerationOptions)
  | Call_createDraft (content : jsstring) (options : TypefullyService.DraftOptions).

Definition M (A : Type) : Type :=
  list ServiceCall -> completion A * list ServiceCall.

#[export] Instance M_ret : MRet M := fun A a tr => (Normal a, tr).

#[export] Instance M_bind : MBind M := fun A B f m tr =>
  match m tr with
  | (Normal a, tr') => f a tr'
  | (Abrupt e, tr') => (Abrupt e, tr')
  end.

Definition throw {A} (e : thrown) : M A := fun tr => (Abrupt e, tr).

(** [try { body } catch (error) { handler }] *)
Definition tryCatch {A} (body : M A) (handler : thrown -> M A) : M A := fun tr =>
  match body tr with
  | (Normal a, tr') => (Normal a, tr')
  | (Abrupt e, tr') => handler e tr'
  end.

(** Calling a service method: the call is recorded, then it completes. *)
Definition invoke {A} (c : ServiceCall) (r : completion A) : M A := fun tr =>
  (r, tr ++ [c]).

(** Running a computation from an empty trace. *)
Definition run {A} (m : M A) : completion A * list ServiceCall := m [].

(** ** The response envelope *)

Record ContentBlock := { type : jsstring; text : jsstring }.

(** [isError] is an optional field: the success paths do not set it. *)
Record ToolResult := {
  blocks : list ContentBlock;
  isError : option bool;
}.

Definition textBlock (s : jsstring) : ContentBlock :=
  {| type := js "text"; text := s |}.

(** [s.replace(/[\r\n\t]/g, " ")] *)
Definition replaceControlChars (s : jsstring) : jsstring :=
  map (fun c => if (c =? CR) || (c =? LF) || (c =? TAB) then SP else c) s.

(** [s.toLowerCase()]; the dispatcher applies it to ASCII literals only. *)
Definition toLowerCase (s : jsstring) : jsstring :=
  map (fun c => if code_in 65 90 c then c + 32 else c) s.

(** Non-ASCII characters of the message templates, as UTF-16 code units. *)
Module Glyph.
Definition cross_mark : jsstring := [0x274C].
Definition movie_camera : jsstring := [0xD83C; 0xDFA5].
Definition television : jsstring := [0xD83D; 0xDCFA].
Definition globe : jsstring := [0xD83C; 0xDF0D].
Definition stopwatch : jsstring := [0x23F1; 0xFE0F].
Definition memo : jsstring := [0xD83D; 0xDCDD].
Definition light_bulb : jsstring := [0xD83D; 0xDCA1].
Definition bullet : jsstring := [0x2022].
Definition bird : jsstring := [0xD83D; 0xDC26].
Definition thought_balloon : jsstring := [0xD83D; 0xDCAD].
Definition palette : jsstring := [0xD83C; 0xDFA8].
Definition bar_chart : jsstring := [0xD83D; 0xDCCA].
Definition replacement : jsstring := [0xFFFD].
Definition robot : jsstring := [0xD83E; 0xDD16].
Definition sparkles : jsstring := [0x2728].
Definition outbox : jsstring := [0xD83D; 0xDCE4].
Definition check_mark : jsstring := [0x2705].
Definition calendar : jsstring := [0xD83D; 0xDCC5].
Definition thread_spool : jsstring := [0xD83E; 0xDDF5].
Definition link : jsstring := [0xD83D; 0xDD17].
End Glyph.

(** ** The [CallToolRequestSchema] handler *)

Section Dispatcher.

Variable rt : Runtime.
Variable youtubeService : YouTubeService.t.
Variable typeFullyService : TypefullyService.t.

(** [Schema.parse(args)]: a [ZodError] (an [Error]) is thrown on failure. *)
Definition parse {A} (r : ZodResult A) : M A :=
  match r with
  | ZodOk a => mret a
  | ZodFail issues => throw (ErrorObject (zodErrorMessage rt issues))
  end.

Definition transcriptText
    (videoId : jsstring) (transcript : TranscriptResponse)
    (readableText : jsstring) : jsstring :=
  Glyph.movie_camera ++ js " **YouTube Transcript Fetched Successfully!**" ++ [LF; LF]
  ++ Glyph.television ++ js " **Video ID:** " ++ videoId ++ [LF]
  ++ Glyph.globe ++ js " **Language:** " ++ lang transcript ++ [LF]
  ++ Glyph.stopwatch ++ js " **Total Segments:** "
  ++ natToString (length (content transcript)) ++ [LF; LF]
  ++ Glyph.memo ++ js " **Full Transcript:**" ++ [LF; LF]
  ++ readableText ++ [LF; LF]
  ++ Glyph.light_bulb
  ++ js " **Ready to generate content!** You can now use this transcript to:" ++ [LF]
  ++ Glyph.bullet ++ js " Generate tweets with " ++ [DQUOTE]
  ++ js "generate_tweets_from_transcript" ++ [DQUOTE] ++ [LF]
  ++ Glyph.bullet ++ js " Create social media content" ++ [LF]
  ++ Glyph.bullet ++ js " Extract key insights".

Definition tweetContextText
    (prompt : jsstring) (formatDescription : jsstring)
    (context : TweetGenerationContext) : jsstring :=
  Glyph.bird ++ js " **Tweet Generation Context Prepared**" ++ [LF; LF]
  ++ Glyph.thought_balloon ++ js " **User Prompt:** " ++ prompt ++ [LF]
  ++ Glyph.palette ++ js " **Style:** "
  ++ styleString (TweetGenerationService.style context) ++ [LF]
  ++ Glyph.bar_chart ++ js " **Format:** " ++ formatDescription ++ [LF]
  ++ Glyph.replacement ++ js " **Max Tweets:** "
  ++ (if Qeq_bool (maxTweets context) 0 then js "auto-determined"
      else numberToString rt (maxTweets context)) ++ [LF; LF]
  ++ Glyph.robot ++ js " **System Instructions:**" ++ [LF]
  ++ systemPrompt context ++ [LF; LF]
  ++ Glyph.replacement ++ js " **Generation Guidelines:**" ++ [LF]
  ++ instructions context ++ [LF; LF]
  ++ Glyph.sparkles ++ js " **Please create the " ++ toLowerCase formatDescription
  ++ js " based on this context!**".

Definition draftText
    (draft : TypefullyDraftResponse) (threadify : option bool) : jsstring :=
  Glyph.outbox ++ js " **Typefully Draft Created!**" ++ [LF; LF]
  ++ Glyph.check_mark ++ js " **Draft ID:** " ++ id draft ++ [LF]
  ++ Glyph.calendar ++ js " **Created:** "
  ++ dateToLocaleString rt (created_at draft) ++ [LF]
  ++ Glyph.bar_chart ++ js " **Status:** " ++ status draft ++ [LF]
  ++ Glyph.thread_spool ++ js " **Threadified:** "
  ++ (if default false threadify then js "Yes" else js "No") ++ [LF]
  ++ Glyph.link ++ js " **Share URL:** "
  ++ orElse (share_url draft) (js "Not shared") ++ [LF].

(** The options object handed to [generateTweetContext]. *)
Definition tweetOptions (a : GenerateTweetsArgs) : TweetGenerationOptions :=
  {| opt_maxTweets := arg_maxTweets a;
     opt_style := arg_style a;
     opt_format := arg_format a;
     opt_includeCallToAction := Some true;
     opt_includeEmojis := Some true |}.

(** The options object handed to [createDraft]. *)
Definition draftOptions (a : CreateDraftArgs) : TypefullyService.DraftOptions :=
  {| TypefullyService.threadify := arg_threadify a;
     TypefullyService.scheduleDate := arg_scheduleDate a;
     TypefullyService.share := arg_share a;
     TypefullyService.autoRetweetEnabled := None;
     TypefullyService.autoPlugEnabled := None |}.

(** The body of the [switch], inside the outer [try]. *)
Definition dispatch (name : jsstring) (args : option value) : M ToolResult :=
  if decide (name = js "get_youtube_transcript") then
    a ← parse (YouTubeTranscriptSchema args);
    videoId ← invoke (Call_extractVideoId (videoUrl a))
                     (YouTubeService.extractVideoId (videoUrl a));
    transcript ← invoke (Call_getTranscript videoId)
                        (YouTubeService.getTranscript rt youtubeService videoId);
    readableText ← invoke (Call_transcriptToText transcript)
                          (Normal (YouTubeService.transcriptToText transcript));
    mret {| blocks := [textBlock (transcriptText videoId transcript readableText)];
            isError := None |}
  else if decide (name = js "generate_tweets_from_transcript") then
    a ← parse (GenerateTweetsSchema args);
    let options := tweetOptions a in
    context ← invoke
      (Call_generateTweetContext (arg_transcript a) (arg_prompt a) options)
      (Normal (generateTweetContext (numberToString rt)
                 (arg_transcript a) (arg_prompt a) options));
    let formatDescription :=
      match arg_format a with
      | Some single => js "Single Tweet (280 chars max)"
      | _ => js "Tweet Thread"
      end in
    mret {| blocks := [textBlock (tweetContextText (arg_prompt a) formatDescription context)];
            isError := None |}
  else if decide (name = js "create_typefully_draft") then
    a ← parse (CreateDraftSchema args);
    let options := draftOptions a in
    tryCatch
      (draft ← invoke (Call_createDraft (arg_content a) options)
                      (TypefullyService.createDraft rt typeFullyService
                         (arg_content a) options);
       mret {| blocks := [textBlock (draftText draft (arg_threadify a))];
               isError := None |})
      (fun error =>
         mret {| blocks :=
                   [textBlock
                      (Glyph.cross_mark ++ js " **Error:** "
                       ++ match error with
                          | ErrorObject message => message
                          | NonErrorValue => js "Unknown error"
                          end)];
                 isError := None |})
  else
    throw (ErrorObject (js "Unknown tool: " ++ name)).

Definition sanitizedError (error : thrown) : jsstring :=
  match error with
  | ErrorObject message => trim (replaceControlChars message)
  | NonErrorValue => js "Unknown error occurred"
  end.

Definition callTool (name : jsstring) (args : option value) : M ToolResult :=
  tryCatch (dispatch name args)
    (fun error =>
       mret {| blocks :=
                 [textBlock (Glyph.cross_mark ++ js " Error: " ++ sanitizedError error)];
               isError := Some true |}).

End Dispatcher.

(** The envelope built by the outer [catch]. *)
Definition errorResult (error : thrown) : ToolResult :=
  {| blocks := [textBlock (Glyph.cross_mark ++ js " Error: " ++ sanitizedError error)];
     isError := Some true |}.

(** The flag as a client reads it: an absent [isError] counts as false. *)
Definition isErrorFlag (r : ToolResult) : bool := default false (isError r).

(** The names handled by a [case] of the dispatcher (and listed by the
    [ListToolsRequestSchema] handler). *)
Definition registeredNames : list jsstring :=
  [ js "get_youtube_transcript";
    js "generate_tweets_from_transcript";
    js "create_typefully_draft" ].

Definition issuesOf {A} (r : ZodResult A) : option (list ZodIssue) :=
  match r with
  | ZodOk _ => None
  | ZodFail issues => Some issues
  end.

(** The verdict of the schema that the dispatcher applies for [name]: the
    issues found, or [None] when the arguments are accepted (or no schema is
    applied). *)
Definition validationIssues (name : jsstring) (args : option value)
    : option (list ZodIssue) :=
  if decide (name = js "get_youtube_transcript") then
    issuesOf (YouTubeTranscriptSchema args)
  else if decide (name = js "generate_tweets_from_transcript") then
    issuesOf (GenerateTweetsSchema args)
  else if decide (name = js "create_typefully_draft") then
    issuesOf (CreateDraftSchema args)
  else None.

(** The keys of the shape of the schema applied for [name]. *)
Definition declaredFields (name : jsstring) : list jsstring :=
  if decide (name = js "get_youtube_transcript") then
    [ js "videoUrl" ]
  else if decide (name = js "generate_tweets_from_transcript") then
    [ js "transcript"; js "prompt"; js "maxTweets"; js "style"; js "format" ]
  else if decide (name = js "create_typefully_draft") then
    [ js "content"; js "threadify"; js "scheduleDate"; js "share" ]
  else [].

(** ** Process start-up and the serving loop *)

(** [dotenv.config]: the variables of the [.env] file (if it can be read) are
    added to [process.env] where not already set; failures are ignored. *)
Definition loadDotenv (file : option environment) (env : environment)
    : environment :=
  env ∪ default ∅ file.

Inductive ProcessStatus :=
  | Running (youtubeService : YouTubeService.t)
            (typeFullyService : TypefullyService.t)
  | Exited (code : Z).

(** What the MCP SDK makes of the four calls the main module addresses to it,
    each of which may throw: [new Server({name, version})], the registration
    of the listing handler, the registration of the call handler, and
    [server.connect(transport)]. *)
Record ServerSdk := {
  new_Server : completion unit;
  setRequestHandler_ListTools : completion unit;
  setRequestHandler_CallTool : completion unit;
  connect : completion unit;
}.

(** Evaluation of the main module followed by [main()].  The services are
    constructed first, then the server, then the two handlers are registered,
    all at module level and outside any [try]: an exception thrown there is
    uncaught and ends the process with status 1.  A rejection of [main()]
    reaches [process.exit(1)]. *)
Definition startup (sdk : ServerSdk)
    (dotenvFile : option environment) (processEnv : environment)
    : ProcessStatus :=
  let env := loadDotenv dotenvFile processEnv in
  let youtubeService := YouTubeService.new env in
  match TypefullyService.new env with
  | Abrupt _ => Exited 1
  | Normal typeFullyService =>
      match new_Server sdk with
      | Abrupt _ => Exited 1
      | Normal _ =>
          match setRequestHandler_ListTools sdk with
          | Abrupt _ => Exited 1
          | Normal _ =>
              match setRequestHandler_CallTool sdk with
              | Abrupt _ => Exited 1
              | Normal _ =>
                  match connect sdk with
                  | Abrupt _ => Exited 1
                  | Normal _ => Running youtubeService typeFullyService
                  end
              end
          end
      end
  end.

Record ToolRequest := {
  name : jsstring;
  arguments : option value;
}.

(** One tool call served by a process.  A fault that escaped the handler is
    counted as fatal, the worst the transport could make of it. *)
Definition serve (rt : Runtime) (st : ProcessStatus) (request : ToolRequest)
    : ProcessStatus :=
  match st with
  | Exited code => Exited code
  | Running youtubeService typeFullyService =>
      match run (callTool rt youtubeService typeFullyService
                   (name request) (arguments request)) with
      | (Normal _, _) => st
      | (Abrupt _, _) => Exited 1
      end
  end.

Definition serveAll (rt : Runtime) (st : ProcessStatus)
    (requests : list ToolRequest) : ProcessStatus :=
  foldl (serve rt) st requests.

(** ** A concrete runtime and concrete requests

    Used to run the definitions on the scenarios of the specification. *)

Module Scenario.

Definition codeName (c : ZodIssueCode) : jsstring :=
  match c with
  | invalid_type => js "invalid_type"
  | too_small => js "too_small"
  | too_big => js "too_big"
  | invalid_enum_value => js "invalid_enum_value"
  end.

(** A runtime whose two endpoints answer every request the same way. *)
Definition runtime (transcripts : AxiosResult TranscriptResponse)
    (drafts : AxiosResult TypefullyDraftResponse) : Runtime :=
  {| numberToString := fun q => natToString (Z.to_nat (Qnum q / Z.pos (Qden q)));
     dateToLocaleString := fun s => s;
     zodErrorMessage := fun issues => join [LF] (map (fun i => codeName (code i)) issues);
     axios_get_transcript := fun _ _ => transcripts;
     axios_post_drafts := fun _ _ => drafts |}.

Definition object (fields : list (jsstring * value)) : option value :=
  Some (VObj (list_to_map fields)).

Definition segment (s : jsstring) : TranscriptSegment :=
  {| seg_text := s; seg_duration := 1; seg_offset := 0; seg_lang := js "en" |}.

(** Twelve segments whose readable text is [hello world]. *)
Definition helloWorld : TranscriptResponse :=
  {| lang := js "en";
     availableLangs := [js "en"];
     content := segment (js "hello") :: segment (js "world")
                :: replicate 10 (segment []) |}.

Definition unreachable {A} : AxiosResult A :=
  OtherFailure (ErrorObject (js "connect ECONNREFUSED")).

(** The upstream rejects the draft; its message spans two lines. *)
Definition rejectedDraft : AxiosResult TypefullyDraftResponse :=
  AxiosFailed {| response_status := Some 401%nat;
                 response_data_message := None;
                 response_data_error :=
                   Some (VStr (js "Invalid API key" ++ [LF] ++ js "Check your settings"));
                 axios_message := js "Request failed with status code 401" |}.

Definition youtube : YouTubeService.t := {| YouTubeService.apiKey := js "sd-key" |}.
Definition typefully : TypefullyService.t := {| TypefullyService.apiKey := js "tf-key" |}.

Definition helloArgs : option value := object [ (js "content", VStr (js "hello")) ].

Definition shortUrlArgs : option value :=
  object [ (js "videoUrl", VStr (js "https://youtu.be/abc12345678")) ].

Definition fifteenTweetsArgs : option value :=
  object [ (js "transcript", VStr (js "t"));
           (js "prompt", VStr (js "p"));
           (js "maxTweets", VNum 15) ].

(** Draft arguments, and two fields that no schema declares. *)
Definition draftFields : gmap jsstring value :=
  {[ js "content" := VStr (js "hello") ]}.

Definition extraFields : gmap jsstring value :=
  {[ js "color" := VStr (js "red"); js "retries" := VNum 3 ]}.

(** Accepted arguments for the tweet tool, asking for a single tweet. *)
Definition singleTweetArgs : option value :=
  object [ (js "transcript", VStr (js "t"));
           (js "prompt", VStr (js "p"));
           (js "maxTweets", VNum 7);
           (js "format", VStr (js "single")) ].

(** A transcript with a colon, quotes, an emoji, and runs of blanks. *)
Definition noisyTranscript : jsstring :=
  js "Hi:  " ++ [DQUOTE] ++ js "there" ++ [DQUOTE; 0xD83C; 0xDF89; LF; TAB]
  ++ js " ok! ".

(** A URL of another site. *)
Definition otherSiteArgs : option value :=
  object [ (js "videoUrl", VStr (js "https://example.com/x")) ].

(** A tool name with a tab in it. *)
Definition tabbedName : jsstring := js "no" ++ [TAB] ++ js "tool".

(** [.env] absent, nothing set in the environment. *)
Definition emptyEnv : environment := ∅.

(** An SDK that accepts the server as it is set up and connects. *)
Definition lenientSdk : ServerSdk :=
  {| new_Server := Normal ();
     setRequestHandler_ListTools := Normal ();
     setRequestHandler_CallTool := Normal ();
     connect := Normal () |}.

(** An SDK that refuses a tools handler on a server constructed without the
    [tools] capability. *)
Definition strictSdk : ServerSdk :=
  {| new_Server := Normal ();
     setRequestHandler_ListTools :=
       Abrupt (ErrorObject (js "Server does not support tools (required for tools/list)"));
     setRequestHandler_CallTool :=
       Abrupt (ErrorObject (js "Server does not support tools (required for tools/call)"));
     connect := Normal () |}.

(** Only the transcript key is set. *)
Definition onlySupadataKey : environment := {[ js "SUPADATA_API_KEY" := js "sd-key" ]}.

Definition onlyTypefullyKey : environment := {[ js "TYPEFULLY_API_KEY" := js "tf-key" ]}.

End Scenario.

(** ** The [ListToolsRequestSchema] handler *)

Module Catalog.

(** One entry of [properties] in an advertised [inputSchema]. *)
Record Property := {
  type : jsstring;
  description : jsstring;
  enum : option (list jsstring);
  minimum : option Q;
  maximum : option Q;
  default : option value;
}.

Record InputSchema := {
  schema_type : jsstring;
  properties : list (jsstring * Property);
  required : list jsstring;
}.

Record ToolDescriptor := {
  name : jsstring;
  tool_description : jsstring;
  inputSchema : InputSchema;
}.

(** A property that gives its type and description only. *)
Definition plain (ty desc : jsstring) : Property :=
  {| type := ty; description := desc; enum := None;
     minimum := None; maximum := None; default := None |}.

(** The [tools] array that the handler returns. *)
Definition listTools : list ToolDescriptor :=
  [ {| name := js "get_youtube_transcript";
       tool_description :=
         js "Fetch the transcript from a YouTube video using the video URL or ID";
       inputSchema :=
         {| schema_type := js "object";
            properties :=
              [ (js "videoUrl", plain (js "string") (js "YouTube video URL or video ID")) ];
            required := [ js "videoUrl" ] |} |};
    {| name := js "generate_tweets_from_transcript";
       tool_description :=
         js "Generate engaging tweets from a transcript using intelligent content analysis";
       inputSchema :=
         {| schema_type := js "object";
            properties :=
              [ (js "transcript",
                 plain (js "string") (js "The full transcript text to generate tweets from"));
                (js "prompt",
                 plain (js "string")
                   (js "Custom prompt for tweet generation style and approach"));
                (js "maxTweets",
                 {| type := js "number";
                    description := js "Maximum number of tweets to generate (1-10)";
                    enum := None; minimum := Some 1%Q; maximum := Some 10%Q;
                    default := None |});
                (js "style",
                 {| type := js "string";
                    description := js "Style of tweets to generate";
                    enum := Some [ js "conversational"; js "informative";
                                   js "engaging"; js "professional" ];
                    minimum := None; maximum := None; default := None |});
                (js "format",
                 {| type := js "string";
                    description :=
                      js "Format: 'thread' for multiple tweets or 'single' for one tweet under 280 chars";
                    enum := Some [ js "thread"; js "single" ];
                    minimum := None; maximum := None; default := None |}) ];
            required := [ js "transcript"; js "prompt" ] |} |};
    {| name := js "create_typefully_draft";
       tool_description := js "Create a draft in Typefully for later publishing";
       inputSchema :=
         {| schema_type := js "object";
            properties :=
              [ (js "content",
                 plain (js "string")
                   (js "The tweet content or thread to create as a draft"));
                (js "threadify",
                 {| type := js "boolean";
                    description :=
                      js "Whether to automatically split content into a thread";
                    enum := None; minimum := None; maximum := None;
                    default := Some (VBool false) |});
                (js "scheduleDate",
                 plain (js "string")
                   (js "Optional schedule time in ISO 8601 format or 'next-free-slot'"));
                (js "share",
                 {| type := js "boolean";
                    description :=
                      js "Whether to generate a shareable link for the draft";
                    enum := None; minimum := None; maximum := None;
                    default := Some (VBool false) |}) ];
            required := [ js "content" ] |} |} ].

End Catalog.

(** The service calls that go over the network. *)
Definition isNetworkCall (c : ServiceCall) : bool :=
  match c with
  | Call_getTranscript _ | Call_createDraft _ _ => true
  | _ => false
  end.

(** Further concrete values for running the definitions. *)
Module Samples.

(** A runtime whose [ZodError]s carry an empty message. *)
Definition quietRuntime : Runtime :=
  {| numberToString := fun _ => [];
     dateToLocaleString := fun s => s;
     zodErrorMessage := fun _ => [];
     axios_get_transcript := fun _ _ => Scenario.unreachable;
     axios_post_drafts := fun _ _ => Scenario.unreachable |}.

Definition createdDraft : TypefullyDraftResponse :=
  {| id := js "d-42"; draft_content := js "hello"; status := js "draft";
     created_at := js "2024-05-01T10:00:00Z"; scheduled_at := None;
     share_url := None |}.

Definition tweetFields : gmap jsstring value :=
  {[ js "transcript" := VStr (js "t"); js "prompt" := VStr (js "p") ]}.

Definition draftFieldsFull : gmap jsstring value :=
  {[ js "content" := VStr (js "hello");
     js "threadify" := VBool false;
     js "scheduleDate" := VStr [] ]}.




End Samples.

(** ** The paths through a tool call

    Each constructor is one way through the handler, with the envelope it
    returns and the service calls it makes. *)

Definition innerCatchResult (error : thrown) : ToolResult :=
  {| blocks :=
       [textBlock
          (Glyph.cross_mark ++ js " **Error:** "
           ++ match error with
              | ErrorObject message => message
              | NonErrorValue => js "Unknown error"
              end)];
     isError := None |}.

Inductive CallPath (rt : Runtime) (ys : YouTubeService.t) (ts : TypefullyService.t)
    (name : jsstring) (args : option value)
    : ToolResult -> list ServiceCall -> Prop :=
  | path_unknown :
      name ∉ registeredNames ->
      CallPath rt ys ts name args
        (errorResult (ErrorObject (js "Unknown tool: " ++ name))) []
  | path_invalid issues :
      validationIssues name args = Some issues ->
      CallPath rt ys ts name args
        (errorResult (ErrorObject (zodErrorMessage rt issues))) []
  | path_bad_url a e :
      name = js "get_youtube_transcript" ->
      YouTubeTranscriptSchema args = ZodOk a ->
      YouTubeService.extractVideoId (videoUrl a) = Abrupt e ->
      CallPath rt ys ts name args
        (errorResult e) [ Call_extractVideoId (videoUrl a) ]
  | path_fetch_failed a videoId e :
      name = js "get_youtube_transcript" ->
      YouTubeTranscriptSchema args = ZodOk a ->
      YouTubeService.extractVideoId (videoUrl a) = Normal videoId ->
      YouTubeService.getTranscript rt ys videoId = Abrupt e ->
      CallPath rt ys ts name args
        (errorResult e)
        [ Call_extractVideoId (videoUrl a); Call_getTranscript videoId ]
  | path_transcript a videoId t :
      name = js "get_youtube_transcript" ->
      YouTubeTranscriptSchema args = ZodOk a ->
      YouTubeService.extractVideoId (videoUrl a) = Normal videoId ->
      YouTubeService.getTranscript rt ys videoId = Normal t ->
      CallPath rt ys ts name args
        {| blocks := [textBlock (transcriptText videoId t
                                   (YouTubeService.transcriptToText t))];
           isError := None |}
        [ Call_extractVideoId (videoUrl a); Call_getTranscript videoId;
          Call_transcriptToText t ]
  | path_tweets a :
      name = js "generate_tweets_from_transcript" ->
      GenerateTweetsSchema args = ZodOk a ->
      CallPath rt ys ts name args
        {| blocks :=
             [textBlock
                (tweetContextText rt (arg_prompt a)
                   match arg_format a with
                   | Some single => js "Single Tweet (280 chars max)"
                   | _ => js "Tweet Thread"
                   end
                   (generateTweetContext (numberToString rt)
                      (arg_transcript a) (arg_prompt a) (tweetOptions a)))];
           isError := None |}
        [ Call_generateTweetContext (arg_transcript a) (arg_prompt a) (tweetOptions a) ]
  | path_draft a draft :
      name = js "create_typefully_draft" ->
      CreateDraftSchema args = ZodOk a ->
      TypefullyService.createDraft rt ts (arg_content a) (draftOptions a) = Normal draft ->
      CallPath rt ys ts name args
        {| blocks := [textBlock (draftText rt draft (arg_threadify a))];
           isError := None |}
        [ Call_createDraft (arg_content a) (draftOptions a) ]
  | path_draft_failed a e :
      name = js "create_typefully_draft" ->
      CreateDraftSchema args = ZodOk a ->
      TypefullyService.createDraft rt ts (arg_content a) (draftOptions a) = Abrupt e ->
      CallPath rt ys ts name args
        (innerCatchResult e)
        [ Call_createDraft (arg_content a) (draftOptions a) ].

(** * Properties *)

(** ** Strings *)

Lemma startsWith_app (p s : jsstring) : startsWith p (p ++ s) = true.
Proof.
  induction p as [|a p IH]; simpl; [done|].
  by rewrite N.eqb_refl, IH.
Qed.

Lemma includes_here (sub s : jsstring) : includes sub (sub ++ s) = true.
Proof.
  destruct (sub ++ s) eqn:E; simpl; rewrite <- E, startsWith_app; done.
Qed.

Lemma includes_skip (sub a s : jsstring) :
  includes sub s = true -> includes sub (a ++ s) = true.
Proof.
  intros H. induction a as [|c a IH]; simpl; [done|].
  rewrite IH. apply orb_true_r.
Qed.

Lemma includes_self (sub : jsstring) : includes sub sub = true.
Proof. rewrite <- (app_nil_r sub) at 2. apply includes_here. Qed.

Ltac find_substring :=
  repeat first [ apply includes_here | apply includes_self | apply includes_skip ].

Lemma trimStart_suffix (s : jsstring) :
  exists w, s = w ++ trimStart s /\ forallb isWhiteSpace w = true.
Proof.
  induction s as [|c s [w [E W]]]; simpl.
  - by exists [].
  - destruct (isWhiteSpace c) eqn:Hc.
    + exists (c :: w). simpl. rewrite Hc, W. by rewrite <- E.
    + by exists [].
Qed.

Lemma trimStart_head (s : jsstring) (c : N) :
  head (trimStart s) = Some c -> isWhiteSpace c = false.
Proof.
  induction s as [|d s IH]; simpl; [done|].
  destruct (isWhiteSpace d) eqn:Hd; [done|].
  simpl. by intros [= <-].
Qed.

Lemma trimStart_id (c : N) (s : jsstring) :
  isWhiteSpace c = false -> trimStart (c :: s) = c :: s.
Proof. intros H; simpl; by rewrite H. Qed.

Lemma trimStart_app (a b : jsstring) :
  trimStart (a ++ b) =
  match trimStart a with
  | [] => trimStart b
  | c :: r => (c :: r) ++ b
  end.
Proof.
  induction a as [|c a IH]; simpl; [done|].
  destruct (isWhiteSpace c); [done|]. done.
Qed.

Lemma trimEnd_prefix (s : jsstring) :
  exists w, s = trimEnd s ++ w /\ forallb isWhiteSpace w = true.
Proof.
  unfold trimEnd. destruct (trimStart_suffix (rev s)) as [w [E W]].
  exists (rev w). split.
  - rewrite <- rev_app_distr, <- E. by rewrite rev_involutive.
  - rewrite forallb_forall in *. intros x Hx. apply W. by apply in_rev.
Qed.

Lemma last_rev_head (s : jsstring) : last (rev s) = head s.
Proof. destruct s as [|c s]; simpl; [done|]. apply last_snoc. Qed.

Lemma trimEnd_last (s : jsstring) (c : N) :
  last (trimEnd s) = Some c -> isWhiteSpace c = false.
Proof.
  unfold trimEnd. rewrite last_rev_head. apply trimStart_head.
Qed.

(** A prefix that ends in a non-blank character is out of reach of
    [trimEnd]. *)
Lemma trimEnd_app (p q : jsstring) (c : N) :
  last p = Some c -> isWhiteSpace c = false ->
  trimEnd (p ++ q) = p ++ trimEnd q.
Proof.
  intros Hl Hc. unfold trimEnd.
  rewrite rev_app_distr, trimStart_app.
  assert (Hp : trimStart (rev p) = rev p).
  { destruct (rev p) as [|d r] eqn:E.
    - done.
    - assert (d = c) as ->.
      { apply (f_equal (@rev N)) in E. rewrite rev_involutive in E.
        subst p. simpl in Hl. rewrite last_snoc in Hl. congruence. }
      by apply trimStart_id. }
  destruct (trimStart (rev q)) as [|d r].
  - by rewrite Hp, rev_involutive, app_nil_r.
  - by rewrite rev_app_distr, rev_involutive.
Qed.

Lemma trim_sub (s : jsstring) (c : N) : c ∈ trim s -> c ∈ s.
Proof.
  unfold trim. intros H.
  destruct (trimEnd_prefix (trimStart s)) as [w [E _]].
  destruct (trimStart_suffix s) as [v [E' _]].
  rewrite E'. apply elem_of_app. right.
  rewrite E. apply elem_of_app. by left.
Qed.

Lemma trim_head (s : jsstring) (c : N) :
  head (trim s) = Some c -> isWhiteSpace c = false.
Proof.
  unfold trim. intros H.
  destruct (trimEnd_prefix (trimStart s)) as [w [E _]].
  apply (trimStart_head s).
  rewrite E. destruct (trimEnd (trimStart s)); [done|]. done.
Qed.

Lemma trim_last (s : jsstring) (c : N) :
  last (trim s) = Some c -> isWhiteSpace c = false.
Proof. apply trimEnd_last. Qed.

Lemma replaceControlChars_clean (s : jsstring) (c : N) :
  c ∈ replaceControlChars s -> c <> CR /\ c <> LF /\ c <> TAB.
Proof.
  unfold replaceControlChars. rewrite list_elem_of_In, in_map_iff.
  intros [d [E _]].
  destruct ((d =? CR) || (d =? LF) || (d =? TAB)) eqn:H.
  - subst c. unfold SP, CR, LF, TAB. lia.
  - subst c. apply orb_false_elim in H as [H H3].
    apply orb_false_elim in H as [H1 H2].
    apply N.eqb_neq in H1, H2, H3. done.
Qed.

Lemma replaceControlChars_id (s : jsstring) :
  (forall c, c ∈ s -> c <> CR /\ c <> LF /\ c <> TAB) ->
  replaceControlChars s = s.
Proof.
  intros H. unfold replaceControlChars.
  induction s as [|d s IH]; simpl; [done|].
  destruct (H d) as (H1 & H2 & H3); [left|].
  apply N.eqb_neq in H1, H2, H3. rewrite H1, H2, H3. simpl.
  f_equal. apply IH. intros c Hc. apply H. by right.
Qed.

Lemma replaceControlChars_app (a b : jsstring) :
  replaceControlChars (a ++ b) = replaceControlChars a ++ replaceControlChars b.
Proof. apply map_app. Qed.

Lemma trim_fixed_prefix (p q : jsstring) (c0 c : N) :
  head p = Some c0 -> isWhiteSpace c0 = false ->
  last p = Some c -> isWhiteSpace c = false ->
  trim (p ++ q) = p ++ trimEnd q.
Proof.
  intros Hh Hc0 Hl Hc. unfold trim.
  destruct p as [|d p]; [done|]. simpl in Hh. injection Hh as ->.
  change ((c0 :: p) ++ q) with (c0 :: (p ++ q)).
  rewrite trimStart_id by done.
  change (c0 :: (p ++ q)) with ((c0 :: p) ++ q).
  by apply trimEnd_app with c.
Qed.

(** ** The dispatcher *)

Section DispatcherFacts.

Variable rt : Runtime.
Variable youtubeService : YouTubeService.t.
Variable typeFullyService : TypefullyService.t.

Local Abbreviation callTool' := (callTool rt youtubeService typeFullyService).
Local Abbreviation dispatch' := (dispatch rt youtubeService typeFullyService).

Lemma tryCatch_resolves {A} (body : M A) (handler : thrown -> M A) :
  (forall e tr, exists a tr', handler e tr = (Normal a, tr')) ->
  forall tr, exists a tr', tryCatch body handler tr = (Normal a, tr').
Proof.
  intros H tr. unfold tryCatch.
  destruct (body tr) as [[a|e] tr']; eauto.
Qed.

Lemma callTool_resolves name args tr :
  exists r tr', callTool' name args tr = (Normal r, tr').
Proof.
  apply tryCatch_resolves. intros e tr0. by eexists _, _.
Qed.

Lemma callTool_caught name args e tr tr' :
  dispatch' name args tr = (Abrupt e, tr') ->
  callTool' name args tr = (Normal (errorResult e), tr').
Proof. intros H. unfold callTool, tryCatch. by rewrite H. Qed.

Lemma callTool_returned name args r tr tr' :
  dispatch' name args tr = (Normal r, tr') ->
  callTool' name args tr = (Normal r, tr').
Proof. intros H. unfold callTool, tryCatch. by rewrite H. Qed.

Lemma dispatch_unknown name args tr :
  name ∉ registeredNames ->
  dispatch' name args tr = (Abrupt (ErrorObject (js "Unknown tool: " ++ name)), tr).
Proof.
  intros H. unfold dispatch.
  repeat case_decide; try done;
    subst; exfalso; apply H; unfold registeredNames; set_solver.
Qed.

Lemma dispatch_invalid name args issues tr :
  validationIssues name args = Some issues ->
  dispatch' name args tr = (Abrupt (ErrorObject (zodErrorMessage rt issues)), tr).
Proof.
  unfold validationIssues, dispatch.
  repeat case_decide; try done.
  - destruct (YouTubeTranscriptSchema args); simpl; [done|]. by intros [= <-].
  - destruct (GenerateTweetsSchema args); simpl; [done|]. by intros [= <-].
  - destruct (CreateDraftSchema args); simpl; [done|]. by intros [= <-].
Qed.

Lemma dispatch_transcript args a tr :
  YouTubeTranscriptSchema args = ZodOk a ->
  dispatch' (js "get_youtube_transcript") args tr =
  match YouTubeService.extractVideoId (videoUrl a) with
  | Abrupt e => (Abrupt e, tr ++ [Call_extractVideoId (videoUrl a)])
  | Normal videoId =>
      match YouTubeService.getTranscript rt youtubeService videoId with
      | Abrupt e =>
          (Abrupt e, (tr ++ [Call_extractVideoId (videoUrl a)])
                     ++ [Call_getTranscript videoId])
      | Normal t =>
          (Normal {| blocks := [textBlock (transcriptText videoId t
                                  (YouTubeService.transcriptToText t))];
                     isError := None |},
           ((tr ++ [Call_extractVideoId (videoUrl a)])
            ++ [Call_getTranscript videoId]) ++ [Call_transcriptToText t])
      end
  end.
Proof.
  intros E. unfold dispatch. rewrite decide_True by done.
  rewrite E. simpl. unfold mbind, M_bind, invoke. simpl.
  destruct (YouTubeService.extractVideoId (videoUrl a)) as [videoId|e]; [|done].
  by destruct (YouTubeService.getTranscript rt youtubeService videoId).
Qed.

Lemma dispatch_tweets args a tr :
  GenerateTweetsSchema args = ZodOk a ->
  dispatch' (js "generate_tweets_from_transcript") args tr =
  (Normal {| blocks :=
               [textBlock
                  (tweetContextText rt (arg_prompt a)
                     match arg_format a with
                     | Some single => js "Single Tweet (280 chars max)"
                     | _ => js "Tweet Thread"
                     end
                     (generateTweetContext (numberToString rt)
                        (arg_transcript a) (arg_prompt a) (tweetOptions a)))];
             isError := None |},
   tr ++ [Call_generateTweetContext (arg_transcript a) (arg_prompt a) (tweetOptions a)]).
Proof.
  intros E. unfold dispatch.
  rewrite decide_False by done. rewrite decide_True by done.
  rewrite E. reflexivity.
Qed.

Lemma dispatch_draft args a tr :
  CreateDraftSchema args = ZodOk a ->
  dispatch' (js "create_typefully_draft") args tr =
  (Normal
     match TypefullyService.createDraft rt typeFullyService
             (arg_content a) (draftOptions a) with
     | Normal draft =>
         {| blocks := [textBlock (draftText rt draft (arg_threadify a))];
            isError := None |}
     | Abrupt error =>
         {| blocks :=
              [textBlock
                 (Glyph.cross_mark ++ js " **Error:** "
                  ++ match error with
                     | ErrorObject message => message
                     | NonErrorValue => js "Unknown error"
                     end)];
            isError := None |}
     end,
   tr ++ [Call_createDraft (arg_content a) (draftOptions a)]).
Proof.
  intros E. unfold dispatch.
  do 2 (rewrite decide_False by done). rewrite decide_True by done.
  rewrite E. simpl. unfold tryCatch, mbind, M_bind, invoke. simpl.
  by destruct (TypefullyService.createDraft _ _ _ _).
Qed.

(** What the outer [catch] puts in the envelope carries no carriage return,
    line feed or tab. *)
Lemma sanitizedError_clean (error : thrown) (c : N) :
  c ∈ sanitizedError error -> c <> CR /\ c <> LF /\ c <> TAB.
Proof.
  destruct error as [message|]; simpl.
  - intros H. apply trim_sub in H. by apply replaceControlChars_clean in H.
  - intros H. apply list_elem_of_In in H. simpl in H.
    unfold CR, LF, TAB. intuition lia.
Qed.

End DispatcherFacts.

(** ** Claims about the envelope *)

(** C3: a tool call never raises past the dispatcher boundary.  For every
    runtime, every name (registered or not) and every arguments value,
    [callTool] completes normally with a [ToolResult]. *)
Theorem callTool_never_raises
    (rt : Runtime) (ys : YouTubeService.t) (ts : TypefullyService.t)
    (name : jsstring) (args : option value) :
  exists (r : ToolResult) (calls : list ServiceCall),
    run (callTool rt ys ts name args) = (Normal r, calls).
Proof. apply callTool_resolves. Qed.

(** C1, at the failing path: when [createDraft] raises a fault, the inner
    [catch] of the [create_typefully_draft] case answers with an envelope
    whose [isError] field is absent, so the fault is not flagged. *)
Theorem draft_fault_not_flagged
    (rt : Runtime) (ys : YouTubeService.t) (ts : TypefullyService.t)
    (args : option value) (a : CreateDraftArgs) (e : thrown) :
  CreateDraftSchema args = ZodOk a ->
  TypefullyService.createDraft rt ts (arg_content a) (draftOptions a) = Abrupt e ->
  exists r : ToolResult,
    run (callTool rt ys ts (js "create_typefully_draft") args)
    = (Normal r, [Call_createDraft (arg_content a) (draftOptions a)])
    /\ isError r = None /\ isErrorFlag r = false.
Proof.
  intros Ha He. eexists. split.
  - unfold run. apply callTool_returned. rewrite (dispatch_draft _ _ _ _ a _ Ha).
    rewrite He. reflexivity.
  - done.
Qed.

Lemma draft_fault_not_flagged_witness :
  exists r : ToolResult,
    run (callTool (Scenario.runtime Scenario.unreachable Scenario.rejectedDraft)
           Scenario.youtube Scenario.typefully
           (js "create_typefully_draft") Scenario.helloArgs)
    = (Normal r, [Call_createDraft (js "hello")
                    (draftOptions {| arg_content := js "hello"; arg_threadify := None;
                                     arg_scheduleDate := None; arg_share := None |})])
    /\ isError r = None /\ isErrorFlag r = false.
Proof.
  eapply (draft_fault_not_flagged _ _ _ Scenario.helloArgs
            {| arg_content := js "hello"; arg_threadify := None;
               arg_scheduleDate := None; arg_share := None |}).
  - vm_compute. reflexivity.
  - vm_compute. reflexivity.
Defined.

(** C2, at the failing path: the message of a fault raised by [createDraft]
    is copied into the envelope as it is, without the replacement of carriage
    returns, line feeds and tabs and without trimming; every character of the
    message, a line feed included, is in the text. *)
Theorem draft_fault_message_verbatim
    (rt : Runtime) (ys : YouTubeService.t) (ts : TypefullyService.t)
    (args : option value) (a : CreateDraftArgs) (message : jsstring) :
  CreateDraftSchema args = ZodOk a ->
  TypefullyService.createDraft rt ts (arg_content a) (draftOptions a)
    = Abrupt (ErrorObject message) ->
  exists t : jsstring,
    fst (run (callTool rt ys ts (js "create_typefully_draft") args))
    = Normal {| blocks := [textBlock t]; isError := None |}
    /\ t = Glyph.cross_mark ++ js " **Error:** " ++ message
    /\ forall c, c ∈ message -> c ∈ t.
Proof.
  intros Ha He. eexists. split; [|split; [reflexivity|]].
  - unfold run. rewrite (callTool_returned _ _ _ _ _ _ [] _ (dispatch_draft _ _ _ _ a _ Ha)).
    rewrite He. reflexivity.
  - intros c Hc. rewrite !elem_of_app. auto.
Qed.

Lemma draft_fault_message_verbatim_witness :
  exists t : jsstring,
    fst (run (callTool (Scenario.runtime Scenario.unreachable Scenario.rejectedDraft)
                Scenario.youtube Scenario.typefully
                (js "create_typefully_draft") Scenario.helloArgs))
    = Normal {| blocks := [textBlock t]; isError := None |}
    /\ LF ∈ t.
Proof.
  destruct (draft_fault_message_verbatim
              (Scenario.runtime Scenario.unreachable Scenario.rejectedDraft)
              Scenario.youtube Scenario.typefully Scenario.helloArgs
              {| arg_content := js "hello"; arg_threadify := None;
                 arg_scheduleDate := None; arg_share := None |}
              (js "Typefully API error: 401 - Invalid API key" ++ [LF]
               ++ js "Check your settings"))
    as (t & Hrun & _ & Hin).
  - vm_compute. reflexivity.
  - vm_compute. reflexivity.
  - exists t. split; [exact Hrun|].
    apply Hin. rewrite !elem_of_app. right. left. by left.
Defined.

(** C5: validation comes before the handler.  Whenever the schema applied for
    a tool rejects the arguments, the call answers with an envelope flagged
    [isError: true] and the trace of service calls is empty: no handler was
    invoked. *)
Theorem invalid_arguments_rejected
    (rt : Runtime) (ys : YouTubeService.t) (ts : TypefullyService.t)
    (name : jsstring) (args : option value) (issues : list ZodIssue) :
  validationIssues name args = Some issues ->
  exists r : ToolResult,
    run (callTool rt ys ts name args) = (Normal r, [])
    /\ isError r = Some true
    /\ r = errorResult (ErrorObject (zodErrorMessage rt issues)).
Proof.
  intros H. exists (errorResult (ErrorObject (zodErrorMessage rt issues))).
  split; [|done].
  unfold run. apply callTool_caught. by apply dispatch_invalid.
Qed.

Lemma invalid_arguments_rejected_witness :
  (validationIssues (js "get_youtube_transcript") (Scenario.object [])
   = Some [ {| code := invalid_type; path := [js "videoUrl"] |} ]
   /\ exists r : ToolResult,
       run (callTool (Scenario.runtime (AxiosData Scenario.helloWorld) Scenario.unreachable)
              Scenario.youtube Scenario.typefully
              (js "get_youtube_transcript") (Scenario.object []))
       = (Normal r, []) /\ isError r = Some true)
  /\
  (validationIssues (js "generate_tweets_from_transcript") Scenario.fifteenTweetsArgs
   = Some [ {| code := too_big; path := [js "maxTweets"] |} ]
   /\ exists r : ToolResult,
       run (callTool (Scenario.runtime (AxiosData Scenario.helloWorld) Scenario.unreachable)
              Scenario.youtube Scenario.typefully
              (js "generate_tweets_from_transcript") Scenario.fifteenTweetsArgs)
       = (Normal r, []) /\ isError r = Some true).
Proof.
  split; (split; [vm_compute; reflexivity|]).
  - destruct (invalid_arguments_rejected
                (Scenario.runtime (AxiosData Scenario.helloWorld) Scenario.unreachable)
                Scenario.youtube Scenario.typefully
                (js "get_youtube_transcript") (Scenario.object [])
                [ {| code := invalid_type; path := [js "videoUrl"] |} ])
      as (r & Hr & He & _); [vm_compute; reflexivity|].
    exists r. split; [exact Hr | exact He].
  - destruct (invalid_arguments_rejected
                (Scenario.runtime (AxiosData Scenario.helloWorld) Scenario.unreachable)
                Scenario.youtube Scenario.typefully
                (js "generate_tweets_from_transcript") Scenario.fifteenTweetsArgs
                [ {| code := too_big; path := [js "maxTweets"] |} ])
      as (r & Hr & He & _); [vm_compute; reflexivity|].
    exists r. split; [exact Hr | exact He].
Defined.

(** A required field that is absent, and a number above the declared range,
    are validation faults whatever the other fields hold. *)
Lemma missing_videoUrl_is_fault (fields : gmap jsstring value) :
  fields !! js "videoUrl" = None ->
  validationIssues (js "get_youtube_transcript") (Some (VObj fields))
  = Some [ {| code := invalid_type; path := [js "videoUrl"] |} ].
Proof.
  intros H. unfold validationIssues. rewrite decide_True by done.
  unfold YouTubeTranscriptSchema, z.object, z.field. by rewrite H.
Qed.

Lemma maxTweets_above_range_is_fault (fields : gmap jsstring value) (q : Q) :
  fields !! js "maxTweets" = Some (VNum q) -> (10 < q)%Q ->
  exists issues,
    validationIssues (js "generate_tweets_from_transcript") (Some (VObj fields))
    = Some issues
    /\ {| code := too_big; path := [js "maxTweets"] |} ∈ issues.
Proof.
  intros H Hq. unfold validationIssues.
  rewrite decide_False by done. rewrite decide_True by done.
  unfold GenerateTweetsSchema, z.object.
  assert (Hm : z.field (js "maxTweets") (z.optional (z.number 1 10)) fields
               = ZodFail (z.issue too_big [js "maxTweets"])).
  { unfold z.field, z.optional, z.number. rewrite H.
    assert (Qle_bool 1 q = true) as ->.
    { apply Qle_bool_iff. apply Qlt_le_weak. by apply Qlt_trans with 10%Q. }
    assert (Qle_bool q 10 = false) as ->.
    { apply not_true_is_false. rewrite Qle_bool_iff. by apply Qlt_not_le. }
    done. }
  rewrite Hm.
  destruct (z.field (js "transcript") _ fields),
           (z.field (js "prompt") _ fields),
           (z.field (js "style") _ fields),
           (z.field (js "format") _ fields); simpl;
    eexists; (split; [reflexivity|]); unfold z.issue; set_solver.
Qed.

(** C6 as stated fails: the text for the unknown name [no<TAB>tool] reads
    [Unknown tool: no tool]; the name is not in it as it was given. *)
Lemma unknown_tool_name_altered :
  (Scenario.tabbedName ∉ registeredNames)
  /\ exists t : jsstring,
       run (callTool (Scenario.runtime Scenario.unreachable Scenario.unreachable)
              Scenario.youtube Scenario.typefully
              Scenario.tabbedName (Scenario.object []))
       = (Normal {| blocks := [textBlock t]; isError := Some true |}, [])
       /\ t = Glyph.cross_mark ++ js " Error: Unknown tool: no tool"
       /\ includes (js "Unknown tool: " ++ Scenario.tabbedName) t = false.
Proof.
  split.
  - apply (bool_decide_unpack _). vm_compute. exact I.
  - eexists. split; [vm_compute; reflexivity|]. split; vm_compute; reflexivity.
Qed.

(** C6, amended: a name outside the registry is answered, without any
    service call, by an envelope flagged [isError: true] with one text block:
    the cross mark and [ Error: ] followed by the sanitized form of
    [Unknown tool: <name>].  The text always contains [Unknown tool:], and it
    contains [Unknown tool: <name>] as given whenever the name has no
    carriage return, line feed or tab and ends in a non-blank character. *)
Theorem unknown_tool_result
    (rt : Runtime) (ys : YouTubeService.t) (ts : TypefullyService.t)
    (name : jsstring) (args : option value) :
  name ∉ registeredNames ->
  exists t : jsstring,
    run (callTool rt ys ts name args)
    = (Normal {| blocks := [textBlock t]; isError := Some true |}, [])
    /\ t = Glyph.cross_mark ++ js " Error: "
           ++ trim (replaceControlChars (js "Unknown tool: " ++ name))
    /\ includes (js "Unknown tool:") t = true
    /\ ((forall c, c ∈ name -> c <> CR /\ c <> LF /\ c <> TAB) ->
        (exists c, last name = Some c /\ isWhiteSpace c = false) ->
        includes (js "Unknown tool: " ++ name) t = true).
Proof.
  intros Hn. eexists. split; [|split; [reflexivity|split]].
  - unfold run. rewrite (callTool_caught _ _ _ _ _ _ _ _ (dispatch_unknown _ _ _ _ args [] Hn)).
    reflexivity.
  - rewrite replaceControlChars_app.
    change (replaceControlChars (js "Unknown tool: "))
      with (js "Unknown tool:" ++ [SP]).
    rewrite <- app_assoc.
    rewrite (trim_fixed_prefix (js "Unknown tool:") _ 85 58) by reflexivity.
    find_substring.
  - intros Hclean (c & Hl & Hc).
    rewrite replaceControlChars_app, (replaceControlChars_id name) by done.
    change (replaceControlChars (js "Unknown tool: ")) with (js "Unknown tool: ").
    rewrite <- (app_nil_r (js "Unknown tool: " ++ name)) at 2.
    rewrite (trim_fixed_prefix (js "Unknown tool: " ++ name) [] 85 c);
      [| reflexivity | reflexivity | | done].
    + change (trimEnd []) with (@nil N). rewrite app_nil_r. find_substring.
    + rewrite last_app, Hl. done.
Qed.

Lemma unknown_tool_result_witness :
  exists t : jsstring,
    run (callTool (Scenario.runtime Scenario.unreachable Scenario.unreachable)
           Scenario.youtube Scenario.typefully (js "nonexistent_tool") (Scenario.object []))
    = (Normal {| blocks := [textBlock t]; isError := Some true |}, [])
    /\ includes (js "Unknown tool: nonexistent_tool") t = true.
Proof.
  destruct (unknown_tool_result
              (Scenario.runtime Scenario.unreachable Scenario.unreachable)
              Scenario.youtube Scenario.typefully
              (js "nonexistent_tool") (Scenario.object []))
    as (t & Hrun & _ & _ & Hname).
  - apply (bool_decide_unpack _). vm_compute. exact I.
  - exists t. split; [exact Hrun|].
    apply Hname.
    + intros c Hc. apply list_elem_of_In in Hc. simpl in Hc.
      unfold CR, LF, TAB. intuition lia.
    + exists 108. split; reflexivity.
Defined.

(** ** Video identifiers *)

Section ExtractVideoId.

Import YouTubeService.

Lemma startsWith_elem (p s : jsstring) (c : N) :
  startsWith p s = true -> c ∈ p -> c ∈ s.
Proof.
  revert s. induction p as [|a p IH]; intros s H Hc.
  - by apply elem_of_nil in Hc.
  - destruct s as [|b s]; simpl in H; [done|].
    apply andb_true_iff in H as [Hab H]. apply N.eqb_eq in Hab. subst b.
    apply elem_of_cons in Hc as [->|Hc]; [left|right]. by apply IH.
Qed.

Lemma startsWith_head_ne (p s : jsstring) (a c : N) :
  head p = Some a -> a <> c -> startsWith p (c :: s) = false.
Proof.
  destruct p as [|b p]; [done|]. simpl. intros [= ->] H.
  apply N.eqb_neq in H. by rewrite H.
Qed.

Lemma matchShapesAt_other (c : N) (s : jsstring) :
  c <> 121 -> matchShapesAt urlShapes (c :: s) = None.
Proof.
  intros Hc. unfold urlShapes. cbn [matchShapesAt].
  by rewrite !(startsWith_head_ne _ s 121 c).
Qed.

Lemma matchUrlPattern_cons (c : N) (s : jsstring) :
  matchUrlPattern (c :: s) =
  match matchShapesAt urlShapes (c :: s) with
  | Some id => Some id
  | None => matchUrlPattern s
  end.
Proof. reflexivity. Qed.

(** Characters before the first [y] cannot start a match. *)
Lemma matchUrlPattern_skip (pre s : jsstring) :
  121 ∉ pre -> matchUrlPattern (pre ++ s) = matchUrlPattern s.
Proof.
  induction pre as [|c pre IH]; intros H; [done|].
  apply not_elem_of_cons in H as [Hc H].
  change ((c :: pre) ++ s) with (c :: (pre ++ s)).
  rewrite matchUrlPattern_cons, matchShapesAt_other by done. by apply IH.
Qed.

Lemma matchUrlPattern_here (s id : jsstring) :
  matchShapesAt urlShapes s = Some id -> matchUrlPattern s = Some id.
Proof.
  intros H. destruct s as [|c s]; [by vm_compute in H|].
  by rewrite matchUrlPattern_cons, H.
Qed.

Lemma captureId_app (id rest : jsstring) :
  (forall c, c ∈ id -> isIdStop c = false) ->
  (rest = [] \/ exists c r, rest = c :: r /\ isIdStop c = true) ->
  captureId (id ++ rest) = id.
Proof.
  intros Hid Hrest. induction id as [|c id IH]; simpl.
  - destruct Hrest as [->|(c & r & -> & Hc)]; [done|]. simpl. by rewrite Hc.
  - rewrite (Hid c) by left. f_equal. apply IH. intros d Hd. apply Hid. by right.
Qed.

Lemma matchShapesAt_shape (shape s : jsstring) (c : N) (r : jsstring) :
  shape ∈ urlShapes -> captureId s = c :: r ->
  matchShapesAt urlShapes (shape ++ s) = Some (c :: r).
Proof.
  intros Hs Hc. unfold urlShapes in *.
  repeat (apply elem_of_cons in Hs as [->|Hs]); [| | |by apply elem_of_nil in Hs].
  - cbn [matchShapesAt]. by rewrite startsWith_app, drop_app_length, Hc.
  - cbn [matchShapesAt].
    assert (startsWith (js "youtube.com/watch?v=") (js "youtu.be/" ++ s) = false)
      as -> by (vm_compute; reflexivity).
    by rewrite startsWith_app, drop_app_length, Hc.
  - cbn [matchShapesAt].
    assert (startsWith (js "youtube.com/watch?v=") (js "youtube.com/embed/" ++ s) = false)
      as -> by (vm_compute; reflexivity).
    assert (startsWith (js "youtu.be/") (js "youtube.com/embed/" ++ s) = false)
      as -> by (vm_compute; reflexivity).
    by rewrite startsWith_app, drop_app_length, Hc.
Qed.

Lemma extractVideoId_url (pre shape id rest : jsstring) :
  121 ∉ pre -> shape ∈ urlShapes -> id <> [] ->
  (forall c, c ∈ id -> isIdStop c = false) ->
  (rest = [] \/ exists c r, rest = c :: r /\ isIdStop c = true) ->
  extractVideoId (pre ++ shape ++ id ++ rest) = Normal id.
Proof.
  intros Hpre Hshape Hne Hid Hrest. unfold extractVideoId.
  rewrite matchUrlPattern_skip by done.
  destruct id as [|c r]; [done|].
  rewrite (matchUrlPattern_here _ (c :: r)); [done|].
  apply matchShapesAt_shape; [done|]. by apply captureId_app.
Qed.

Lemma matchUrlPattern_no_dot (s : jsstring) :
  46 ∉ s -> matchUrlPattern s = None.
Proof.
  assert (Hat : forall s, 46 ∉ s -> matchShapesAt urlShapes s = None).
  { intros s' H.
    assert (Hno : forall p, 46 ∈ p -> startsWith p s' = false).
    { intros p Hp. apply not_true_is_false. intros E.
      apply H. by apply (startsWith_elem p). }
    unfold urlShapes. cbn [matchShapesAt].
    by rewrite !Hno by (apply (bool_decide_unpack _); vm_compute; exact I). }
  induction s as [|c s IH]; intros H.
  - reflexivity.
  - rewrite matchUrlPattern_cons, Hat by done.
    apply IH. by apply not_elem_of_cons in H as [_ H].
Qed.

Lemma extractVideoId_bare (id : jsstring) :
  length id = 11%nat -> forallb isIdChar id = true ->
  extractVideoId id = Normal id.
Proof.
  intros Hlen Hid. unfold extractVideoId.
  rewrite matchUrlPattern_no_dot.
  - unfold matchBareId. by rewrite Hlen, Hid.
  - intros H. rewrite forallb_forall in Hid.
    apply list_elem_of_In, Hid in H. discriminate H.
Qed.

Lemma extractVideoId_fault (url : jsstring) (e : thrown) :
  extractVideoId url = Abrupt e ->
  e = ErrorObject (js "Invalid YouTube URL or video ID").
Proof.
  unfold extractVideoId.
  destruct (matchUrlPattern url); [done|].
  destruct (matchBareId url); [done|]. by intros [= <-].
Qed.

End ExtractVideoId.

Lemma missing_or_empty_videoUrl (fields : gmap jsstring value) :
  fields !! js "videoUrl" = Some (VStr []) ->
  validationIssues (js "get_youtube_transcript") (Some (VObj fields))
  = Some [ {| code := too_small; path := [js "videoUrl"] |} ].
Proof.
  intros H. unfold validationIssues. rewrite decide_True by done.
  unfold YouTubeTranscriptSchema, z.object, z.field. by rewrite H.
Qed.

(** C7: the transcript tool.  For every runtime: if the transcript endpoint
    answers [abc12345678] by a transcript whose readable text is
    [hello world], the call for [https://youtu.be/abc12345678] succeeds,
    [isError] is absent (read as false) and the text shows the identifier and
    the transcript.  Whatever the endpoint answers, [extractVideoId] accepts
    the three URL shapes (after any prefix without a [y], such as
    [https://www.]) and a bare identifier of eleven characters; and a URL that
    matches neither pattern, [https://example.com/x] for one, ends in an
    envelope flagged [isError: true]: after the one call to [extractVideoId]
    and without any request to the endpoint when the URL is not empty, and
    as a validation fault without any call when it is. *)
Theorem transcript_tool_contract
    (rt : Runtime) (ys : YouTubeService.t) (ts : TypefullyService.t) :
  (forall t : TranscriptResponse,
     axios_get_transcript rt (YouTubeService.apiKey ys) (js "abc12345678") = AxiosData t ->
     YouTubeService.transcriptToText t = js "hello world" ->
     exists (r : ToolResult) (text : jsstring),
       run (callTool rt ys ts (js "get_youtube_transcript") Scenario.shortUrlArgs)
       = (Normal r,
          [ Call_extractVideoId (js "https://youtu.be/abc12345678");
            Call_getTranscript (js "abc12345678");
            Call_transcriptToText t ])
       /\ isError r = None /\ isErrorFlag r = false
       /\ blocks r = [textBlock text]
       /\ includes (js "abc12345678") text = true
       /\ includes (js "hello world") text = true)
  /\ (forall pre shape id rest : jsstring,
        121 ∉ pre -> shape ∈ YouTubeService.urlShapes -> id <> [] ->
        (forall c, c ∈ id -> YouTubeService.isIdStop c = false) ->
        (rest = [] \/ exists c r, rest = c :: r /\ YouTubeService.isIdStop c = true) ->
        YouTubeService.extractVideoId (pre ++ shape ++ id ++ rest) = Normal id)
  /\ (forall id : jsstring,
        length id = 11%nat -> forallb YouTubeService.isIdChar id = true ->
        YouTubeService.extractVideoId id = Normal id)
  /\ (forall (fields : gmap jsstring value) (url : jsstring),
        fields !! js "videoUrl" = Some (VStr url) ->
        YouTubeService.matchUrlPattern url = None ->
        YouTubeService.matchBareId url = None ->
        exists (r : ToolResult) (calls : list ServiceCall),
          run (callTool rt ys ts (js "get_youtube_transcript") (Some (VObj fields)))
          = (Normal r, calls)
          /\ isError r = Some true
          /\ (url <> [] ->
              r = errorResult (ErrorObject (js "Invalid YouTube URL or video ID"))
              /\ calls = [ Call_extractVideoId url ])
          /\ (url = [] -> calls = []))
  /\ run (callTool rt ys ts (js "get_youtube_transcript") Scenario.otherSiteArgs)
     = (Normal (errorResult (ErrorObject (js "Invalid YouTube URL or video ID"))),
        [ Call_extractVideoId (js "https://example.com/x") ]).
Proof.
  assert (Hreject :
    forall (fields : gmap jsstring value) (url : jsstring),
      fields !! js "videoUrl" = Some (VStr url) -> url <> [] ->
      YouTubeService.matchUrlPattern url = None ->
      YouTubeService.matchBareId url = None ->
      run (callTool rt ys ts (js "get_youtube_transcript") (Some (VObj fields)))
      = (Normal (errorResult (ErrorObject (js "Invalid YouTube URL or video ID"))),
         [ Call_extractVideoId url ])).
  { intros fields url Hf Hne Hu Hb. unfold run. apply callTool_caught.
    destruct url as [|c url]; [done|].
    assert (Ha : YouTubeTranscriptSchema (Some (VObj fields))
                 = ZodOk {| videoUrl := c :: url |}).
    { unfold YouTubeTranscriptSchema, z.object, z.field, z.string. by rewrite Hf. }
    rewrite (dispatch_transcript _ _ _ _ _ _ Ha). cbn [videoUrl].
    unfold YouTubeService.extractVideoId. by rewrite Hu, Hb. }
  split; [|split; [|split; [|split]]].
  - intros t Hget Htext.
    exists {| blocks := [textBlock (transcriptText (js "abc12345678") t (js "hello world"))];
              isError := None |},
           (transcriptText (js "abc12345678") t (js "hello world")).
    split; [|split; [done|split; [done|split; [done|split]]]].
    + unfold run. apply callTool_returned.
      rewrite (dispatch_transcript _ _ _ _
                 {| videoUrl := js "https://youtu.be/abc12345678" |})
        by (vm_compute; reflexivity).
      cbn [videoUrl].
      assert (YouTubeService.extractVideoId (js "https://youtu.be/abc12345678")
              = Normal (js "abc12345678")) as -> by (vm_compute; reflexivity).
      unfold YouTubeService.getTranscript. rewrite Hget, Htext. reflexivity.
    + unfold transcriptText. find_substring.
    + unfold transcriptText. find_substring.
  - intros. by apply extractVideoId_url.
  - intros. by apply extractVideoId_bare.
  - intros fields url Hf Hu Hb. destruct url as [|c url].
    + eexists _, _. split; [|split; [|split; [done|done]]].
      * unfold run. apply callTool_caught, dispatch_invalid.
        by apply missing_or_empty_videoUrl.
      * done.
    + eexists _, _. split; [by apply Hreject|]. split; [done|]. split; [|done].
      by intros _.
  - apply Hreject; try (vm_compute; reflexivity). done.
Qed.

Lemma transcript_tool_contract_witness :
  (exists (r : ToolResult) (text : jsstring),
     run (callTool (Scenario.runtime (AxiosData Scenario.helloWorld) Scenario.unreachable)
            Scenario.youtube Scenario.typefully
            (js "get_youtube_transcript") Scenario.shortUrlArgs)
     = (Normal r,
        [ Call_extractVideoId (js "https://youtu.be/abc12345678");
          Call_getTranscript (js "abc12345678");
          Call_transcriptToText Scenario.helloWorld ])
     /\ isError r = None /\ isErrorFlag r = false
     /\ blocks r = [textBlock text]
     /\ includes (js "abc12345678") text = true
     /\ includes (js "hello world") text = true)
  /\ run (callTool (Scenario.runtime Scenario.unreachable Scenario.unreachable)
            Scenario.youtube Scenario.typefully
            (js "get_youtube_transcript")
            (Scenario.object [ (js "videoUrl", VStr (js "not a video")) ]))
     = (Normal (errorResult (ErrorObject (js "Invalid YouTube URL or video ID"))),
        [ Call_extractVideoId (js "not a video") ]).
Proof.
  split.
  - apply (transcript_tool_contract
             (Scenario.runtime (AxiosData Scenario.helloWorld) Scenario.unreachable)
             Scenario.youtube Scenario.typefully).
    + reflexivity.
    + vm_compute. reflexivity.
  - destruct (transcript_tool_contract
                (Scenario.runtime Scenario.unreachable Scenario.unreachable)
                Scenario.youtube Scenario.typefully)
      as (_ & _ & _ & Hreject & _).
    destruct (Hreject (list_to_map [ (js "videoUrl", VStr (js "not a video")) ])
                (js "not a video"))
      as (r & calls & Hrun & _ & Hne & _); [vm_compute; reflexivity ..|].
    destruct Hne as [-> ->]; [done|]. exact Hrun.
Defined.

(** ** Open schemas *)

Lemma field_agree {A} (key : jsstring) (s : z.schema A)
    (fields fields' : gmap jsstring value) :
  fields' !! key = fields !! key -> z.field key s fields' = z.field key s fields.
Proof. intros H. unfold z.field. by rewrite H. Qed.

(** A schema reads the keys of its shape and nothing else. *)
Lemma dispatch_agree (rt : Runtime) (ys : YouTubeService.t) (ts : TypefullyService.t)
    (name : jsstring) (fields fields' : gmap jsstring value) (tr : list ServiceCall) :
  (forall k, k ∈ declaredFields name -> fields' !! k = fields !! k) ->
  dispatch rt ys ts name (Some (VObj fields')) tr
  = dispatch rt ys ts name (Some (VObj fields)) tr.
Proof.
  intros H. unfold dispatch, declaredFields in *.
  repeat case_decide; try done.
  - unfold YouTubeTranscriptSchema, z.object.
    rewrite (field_agree (js "videoUrl") _ fields fields') by (apply H; set_solver).
    done.
  - unfold GenerateTweetsSchema, z.object.
    rewrite (field_agree (js "transcript") _ fields fields') by (apply H; set_solver).
    rewrite (field_agree (js "prompt") _ fields fields') by (apply H; set_solver).
    rewrite (field_agree (js "maxTweets") _ fields fields') by (apply H; set_solver).
    rewrite (field_agree (js "style") _ fields fields') by (apply H; set_solver).
    rewrite (field_agree (js "format") _ fields fields') by (apply H; set_solver).
    done.
  - unfold CreateDraftSchema, z.object.
    rewrite (field_agree (js "content") _ fields fields') by (apply H; set_solver).
    rewrite (field_agree (js "threadify") _ fields fields') by (apply H; set_solver).
    rewrite (field_agree (js "scheduleDate") _ fields fields') by (apply H; set_solver).
    rewrite (field_agree (js "share") _ fields fields') by (apply H; set_solver).
    done.
Qed.

Lemma validationIssues_agree (name : jsstring) (fields fields' : gmap jsstring value) :
  (forall k, k ∈ declaredFields name -> fields' !! k = fields !! k) ->
  validationIssues name (Some (VObj fields')) = validationIssues name (Some (VObj fields)).
Proof.
  intros H. unfold validationIssues, declaredFields in *.
  repeat case_decide; try done.
  - unfold YouTubeTranscriptSchema, z.object.
    rewrite (field_agree (js "videoUrl") _ fields fields') by (apply H; set_solver).
    done.
  - unfold GenerateTweetsSchema, z.object.
    rewrite (field_agree (js "transcript") _ fields fields') by (apply H; set_solver).
    rewrite (field_agree (js "prompt") _ fields fields') by (apply H; set_solver).
    rewrite (field_agree (js "maxTweets") _ fields fields') by (apply H; set_solver).
    rewrite (field_agree (js "style") _ fields fields') by (apply H; set_solver).
    rewrite (field_agree (js "format") _ fields fields') by (apply H; set_solver).
    done.
  - unfold CreateDraftSchema, z.object.
    rewrite (field_agree (js "content") _ fields fields') by (apply H; set_solver).
    rewrite (field_agree (js "threadify") _ fields fields') by (apply H; set_solver).
    rewrite (field_agree (js "scheduleDate") _ fields fields') by (apply H; set_solver).
    rewrite (field_agree (js "share") _ fields fields') by (apply H; set_solver).
    done.
Qed.

(** C9: unknown extra fields are ignored.  Adding to the arguments any
    fields whose keys are not declared by the tool's schema changes neither
    the verdict of the validation nor anything the call does: the result and
    the trace of service calls, with the arguments the handlers receive, are
    the same.  In particular arguments that were accepted stay accepted. *)
Theorem extra_fields_ignored
    (rt : Runtime) (ys : YouTubeService.t) (ts : TypefullyService.t)
    (name : jsstring) (fields extra : gmap jsstring value) :
  (forall k, k ∈ declaredFields name -> extra !! k = None) ->
  validationIssues name (Some (VObj (fields ∪ extra)))
  = validationIssues name (Some (VObj fields))
  /\ (validationIssues name (Some (VObj fields)) = None ->
      validationIssues name (Some (VObj (fields ∪ extra))) = None)
  /\ run (callTool rt ys ts name (Some (VObj (fields ∪ extra))))
     = run (callTool rt ys ts name (Some (VObj fields))).
Proof.
  intros H.
  assert (Hagree : forall k, k ∈ declaredFields name ->
                     (fields ∪ extra) !! k = fields !! k).
  { intros k Hk. apply lookup_union_l. by apply H. }
  split; [|split].
  - by apply validationIssues_agree.
  - intros Hok. by rewrite (validationIssues_agree name fields).
  - unfold run, callTool, tryCatch. by rewrite (dispatch_agree _ _ _ _ fields).
Qed.

Lemma extra_fields_ignored_witness :
  validationIssues (js "create_typefully_draft")
    (Some (VObj (Scenario.draftFields ∪ Scenario.extraFields))) = None
  /\ run (callTool (Scenario.runtime Scenario.unreachable Scenario.rejectedDraft)
            Scenario.youtube Scenario.typefully
            (js "create_typefully_draft")
            (Some (VObj (Scenario.draftFields ∪ Scenario.extraFields))))
     = run (callTool (Scenario.runtime Scenario.unreachable Scenario.rejectedDraft)
              Scenario.youtube Scenario.typefully
              (js "create_typefully_draft") (Some (VObj Scenario.draftFields))).
Proof.
  destruct (extra_fields_ignored
              (Scenario.runtime Scenario.unreachable Scenario.rejectedDraft)
              Scenario.youtube Scenario.typefully
              (js "create_typefully_draft") Scenario.draftFields Scenario.extraFields)
    as (_ & Hok & Hrun).
  - intros k Hk. unfold declaredFields in Hk.
    do 2 (rewrite decide_False in Hk by done). rewrite decide_True in Hk by done.
    repeat (apply elem_of_cons in Hk as [->|Hk]); [vm_compute; reflexivity ..|].
    by apply elem_of_nil in Hk.
  - split; [apply Hok; vm_compute; reflexivity | exact Hrun].
Defined.

(** ** The tweet-context handler *)

Section TweetContext.

Variable numberToString : Q -> jsstring.

Lemma generateTweetContext_fields (t p : jsstring) (o : TweetGenerationOptions) :
  generateTweetContext numberToString t p o =
  {| transcript := cleanTranscript t;
     prompt := p;
     format := default thread (opt_format o);
     style := default engaging (opt_style o);
     maxTweets := if Format_eqb (default thread (opt_format o)) single
                  then 1%Q else default 5%Q (opt_maxTweets o);
     includeEmojis := default true (opt_includeEmojis o);
     includeCallToAction := default true (opt_includeCallToAction o);
     systemPrompt :=
       fst (generatePromptAndInstructions numberToString
              (default thread (opt_format o)) (default engaging (opt_style o))
              (default 5%Q (opt_maxTweets o)) p
              (default true (opt_includeEmojis o))
              (default true (opt_includeCallToAction o)));
     instructions :=
       snd (generatePromptAndInstructions numberToString
              (default thread (opt_format o)) (default engaging (opt_style o))
              (default 5%Q (opt_maxTweets o)) p
              (default true (opt_includeEmojis o))
              (default true (opt_includeCallToAction o))) |}.
Proof. reflexivity. Qed.

End TweetContext.

(** C8: the tweet-context handler is a total function of its arguments, the
    rendering of numbers being the only thing it takes from the runtime.  The
    context it returns carries the requested style and format (or the
    defaults [engaging] and [thread]), a system prompt with the guideline of
    that style, instructions that open with the user's prompt, and an
    effective [maxTweets] that is 1 for the format [single], the requested
    number (or 5) for a thread, and within 1..10 when the request is.  Run
    from the dispatcher on accepted arguments it completes normally and is
    the only service call made. *)
Theorem generateTweetContext_contract
    (rt : Runtime) (ys : YouTubeService.t) (ts : TypefullyService.t)
    (t p : jsstring) (o : TweetGenerationOptions) :
  style (generateTweetContext (numberToString rt) t p o) = default engaging (opt_style o)
  /\ format (generateTweetContext (numberToString rt) t p o) = default thread (opt_format o)
  /\ (format (generateTweetContext (numberToString rt) t p o) = single ->
      maxTweets (generateTweetContext (numberToString rt) t p o) = 1%Q)
  /\ (format (generateTweetContext (numberToString rt) t p o) = thread ->
      maxTweets (generateTweetContext (numberToString rt) t p o)
      = default 5%Q (opt_maxTweets o))
  /\ ((forall q, opt_maxTweets o = Some q -> (1 <= q)%Q /\ (q <= 10)%Q) ->
      (1 <= maxTweets (generateTweetContext (numberToString rt) t p o))%Q
      /\ (maxTweets (generateTweetContext (numberToString rt) t p o) <= 10)%Q)
  /\ includes (styleGuidelines (default engaging (opt_style o)))
       (systemPrompt (generateTweetContext (numberToString rt) t p o)) = true
  /\ startsWith p (instructions (generateTweetContext (numberToString rt) t p o)) = true
  /\ (forall (args : option value) (a : GenerateTweetsArgs),
        GenerateTweetsSchema args = ZodOk a ->
        exists r : ToolResult,
          run (callTool rt ys ts (js "generate_tweets_from_transcript") args)
          = (Normal r,
             [ Call_generateTweetContext (arg_transcript a) (arg_prompt a) (tweetOptions a) ])
          /\ isError r = None).
Proof.
  rewrite generateTweetContext_fields. cbn [style format maxTweets systemPrompt instructions].
  split; [done|]. split; [done|]. split; [by intros ->|]. split; [by intros ->|].
  split; [|split; [|split]].
  - intros Hq. destruct (Format_eqb _ _).
    + split; by apply Qle_bool_iff.
    + destruct (opt_maxTweets o) as [q|]; simpl.
      * by apply Hq.
      * split; by apply Qle_bool_iff.
  - unfold generatePromptAndInstructions. cbn [fst]. find_substring.
  - unfold generatePromptAndInstructions. cbn [snd]. apply startsWith_app.
  - intros args a Ha. eexists. split.
    + unfold run. apply callTool_returned. by rewrite (dispatch_tweets _ _ _ _ a).
    + done.
Qed.

Lemma generateTweetContext_contract_witness :
  maxTweets
    (generateTweetContext
       (numberToString (Scenario.runtime Scenario.unreachable Scenario.unreachable))
       (js "t") (js "p")
       {| opt_maxTweets := Some 7%Q; opt_includeCallToAction := Some true;
          opt_style := None; opt_includeEmojis := Some true;
          opt_format := Some single |}) = 1%Q
  /\ exists r : ToolResult,
       run (callTool (Scenario.runtime Scenario.unreachable Scenario.unreachable)
              Scenario.youtube Scenario.typefully
              (js "generate_tweets_from_transcript") Scenario.singleTweetArgs)
       = (Normal r,
          [ Call_generateTweetContext (js "t") (js "p")
              {| opt_maxTweets := Some 7%Q; opt_includeCallToAction := Some true;
                 opt_style := None; opt_includeEmojis := Some true;
                 opt_format := Some single |} ])
       /\ isError r = None.
Proof.
  destruct (generateTweetContext_contract
              (Scenario.runtime Scenario.unreachable Scenario.unreachable)
              Scenario.youtube Scenario.typefully (js "t") (js "p")
              {| opt_maxTweets := Some 7%Q; opt_includeCallToAction := Some true;
                 opt_style := None; opt_includeEmojis := Some true;
                 opt_format := Some single |})
    as (_ & _ & Hsingle & _ & _ & _ & _ & Hcall).
  split.
  - apply Hsingle. reflexivity.
  - apply (Hcall Scenario.singleTweetArgs
             {| arg_transcript := js "t"; arg_prompt := js "p";
                arg_maxTweets := Some 7%Q; arg_style := None;
                arg_format := Some single |}).
    vm_compute. reflexivity.
Defined.

(** ** Cleaning of the transcript *)

Lemma isWhiteSpace_SP : isWhiteSpace SP = true.
Proof. reflexivity. Qed.

Lemma replaceWhiteSpaceRuns_elem (s : jsstring) (c : N) :
  c ∈ replaceWhiteSpaceRuns s -> c = SP \/ (c ∈ s /\ isWhiteSpace c = false).
Proof.
  induction s as [|d s IH]; simpl; [by intros H%elem_of_nil|].
  destruct (isWhiteSpace d) eqn:Hd.
  - destruct s as [|d' s'].
    + intros H%list_elem_of_singleton. by left.
    + destruct (isWhiteSpace d') eqn:Hd'.
      * intros H. destruct (IH H) as [->|[H1 H2]]; [by left|right].
        split; [by right|done].
      * intros [->|H]%elem_of_cons; [by left|].
        destruct (IH H) as [->|[H1 H2]]; [by left|right].
        split; [by right|done].
  - intros [->|H]%elem_of_cons.
    + right. split; [left|done].
    + destruct (IH H) as [->|[H1 H2]]; [by left|right]. split; [by right|done].
Qed.

(** After the replacement no blank is followed by another blank. *)
Lemma replaceWhiteSpaceRuns_single (s pre post : jsstring) (a b : N) :
  replaceWhiteSpaceRuns s = pre ++ a :: b :: post ->
  isWhiteSpace a = true -> isWhiteSpace b = false.
Proof.
  revert pre. induction s as [|d s IH]; intros pre; simpl.
  - by destruct pre.
  - destruct (isWhiteSpace d) eqn:Hd.
    + destruct s as [|d' s'].
      * by destruct pre as [|? [|? ?]].
      * destruct (isWhiteSpace d') eqn:Hd'; [by apply IH|].
        destruct pre as [|x pre].
        -- simpl in *. rewrite Hd'. by intros [= <- <- _].
        -- intros [= _ E]. by apply (IH pre).
    + destruct pre as [|x pre].
      * intros [= <- _]. congruence.
      * intros [= _ E]. by apply (IH pre).
Qed.

Section Filters.

Variable P : N -> bool.
Hypothesis P_not_blank : forall c, P c = true -> isWhiteSpace c = false.

Lemma filter_blank (c : N) : isWhiteSpace c = true -> P c = false.
Proof.
  intros H. destruct (P c) eqn:E; [|done]. apply P_not_blank in E. congruence.
Qed.

Lemma filter_blanks (w : jsstring) :
  forallb isWhiteSpace w = true -> List.filter P w = [].
Proof.
  induction w as [|c w IH]; simpl; [done|].
  intros [Hc Hw]%andb_true_iff. rewrite (filter_blank c) by done. by apply IH.
Qed.

Lemma filter_replaceWhiteSpaceRuns (s : jsstring) :
  List.filter P (replaceWhiteSpaceRuns s) = List.filter P s.
Proof.
  induction s as [|d s IH]; [done|].
  cbn [replaceWhiteSpaceRuns List.filter].
  destruct (isWhiteSpace d) eqn:Hd.
  - rewrite (filter_blank d) by done.
    destruct s as [|d' s']; [simpl; by rewrite (filter_blank SP)|].
    destruct (isWhiteSpace d') eqn:Hd'; [done|].
    cbn [List.filter]. rewrite (filter_blank SP) by done. done.
  - cbn [List.filter]. by rewrite IH.
Qed.

Lemma filter_trim (s : jsstring) : List.filter P (trim s) = List.filter P s.
Proof.
  unfold trim.
  destruct (trimStart_suffix s) as (w & E & W).
  destruct (trimEnd_prefix (trimStart s)) as (v & E' & V).
  rewrite E at 2. rewrite E' at 2.
  by rewrite !List.filter_app, (filter_blanks w), (filter_blanks v), app_nil_r.
Qed.

End Filters.

Lemma filter_filter (P R : N -> bool) (s : jsstring) :
  List.filter P (List.filter R s) = List.filter (fun c => R c && P c) s.
Proof.
  induction s as [|c s IH]; simpl; [done|].
  destruct (R c); simpl; [|done]. destruct (P c); by rewrite IH.
Qed.

Lemma cleanTranscript_chars (t : jsstring) (c : N) :
  c ∈ cleanTranscript t ->
  isWordChar c = true \/ c = SP \/ c ∈ js ".,!?-".
Proof.
  unfold cleanTranscript. intros H%trim_sub.
  apply list_elem_of_In, filter_In in H as [H K].
  apply list_elem_of_In, replaceWhiteSpaceRuns_elem in H as [->|[_ Hw]]; [auto|].
  unfold isKept in K. rewrite Hw, orb_false_r in K.
  destruct (isWordChar c); [by left|]. right; right. simpl in K.
  repeat (apply orb_true_iff in K as [K|K]);
    apply N.eqb_eq in K; subst c; apply (bool_decide_unpack _); vm_compute; exact I.
Qed.

(** C10: the transcript of the context is the cleaned transcript, the prompt
    is the caller's.  Cleaning replaces every run of blanks by one space (no
    blank follows a blank after that step), then deletes every character that
    is not a word character, a blank or one of [. , ! ? -], then trims: the
    result holds only word characters, spaces and that punctuation, neither
    starts nor ends with a blank, and keeps, in order, exactly the non-blank
    characters of the input that are allowed.  The colon, the quotes and the
    emoji of [Scenario.noisyTranscript] are gone from the context. *)
Theorem context_transcript_cleaned
    (numberToString : Q -> jsstring) (t p : jsstring) (o : TweetGenerationOptions) :
  prompt (generateTweetContext numberToString t p o) = p
  /\ transcript (generateTweetContext numberToString t p o)
     = trim (List.filter isKept (replaceWhiteSpaceRuns t))
  /\ (forall pre a b post,
        replaceWhiteSpaceRuns t = pre ++ a :: b :: post ->
        isWhiteSpace a = true -> isWhiteSpace b = false)
  /\ (forall c, c ∈ transcript (generateTweetContext numberToString t p o) ->
        isWordChar c = true \/ c = SP \/ c ∈ js ".,!?-")
  /\ (forall c, head (transcript (generateTweetContext numberToString t p o)) = Some c ->
        isWhiteSpace c = false)
  /\ (forall c, last (transcript (generateTweetContext numberToString t p o)) = Some c ->
        isWhiteSpace c = false)
  /\ List.filter (fun c => negb (isWhiteSpace c))
       (transcript (generateTweetContext numberToString t p o))
     = List.filter (fun c => isKept c && negb (isWhiteSpace c)) t
  /\ transcript (generateTweetContext numberToString Scenario.noisyTranscript p o)
     = js "Hi there ok!".
Proof.
  rewrite !generateTweetContext_fields. cbn [prompt transcript].
  split; [done|]. split; [done|].
  split; [intros pre a b post; apply replaceWhiteSpaceRuns_single|].
  split; [apply cleanTranscript_chars|].
  split; [apply trim_head|]. split; [apply trim_last|].
  split; [|by vm_compute].
  unfold cleanTranscript.
  assert (Hnb : forall c, negb (isWhiteSpace c) = true -> isWhiteSpace c = false)
    by (intros c; by destruct (isWhiteSpace c)).
  rewrite filter_trim by done. rewrite filter_filter.
  rewrite filter_replaceWhiteSpaceRuns; [done|].
  intros c [_ H]%andb_true_iff. by apply Hnb.
Qed.

Lemma context_transcript_cleaned_witness :
  transcript
    (generateTweetContext
       (numberToString (Scenario.runtime Scenario.unreachable Scenario.unreachable))
       Scenario.noisyTranscript (js "Be: brief")
       {| opt_maxTweets := None; opt_includeCallToAction := None;
          opt_style := None; opt_includeEmojis := None; opt_format := None |})
  = js "Hi there ok!"
  /\ prompt
       (generateTweetContext
          (numberToString (Scenario.runtime Scenario.unreachable Scenario.unreachable))
          Scenario.noisyTranscript (js "Be: brief")
          {| opt_maxTweets := None; opt_includeCallToAction := None;
             opt_style := None; opt_includeEmojis := None; opt_format := None |})
     = js "Be: brief".
Proof.
  destruct (context_transcript_cleaned
              (numberToString (Scenario.runtime Scenario.unreachable Scenario.unreachable))
              Scenario.noisyTranscript (js "Be: brief")
              {| opt_maxTweets := None; opt_includeCallToAction := None;
                 opt_style := None; opt_includeEmojis := None; opt_format := None |})
    as (Hp & _ & _ & _ & _ & _ & _ & Ht).
  split; [exact Ht | exact Hp].
Defined.

(** ** Exit status *)

Lemma serve_running (rt : Runtime) (ys : YouTubeService.t) (ts : TypefullyService.t)
    (request : ToolRequest) :
  serve rt (Running ys ts) request = Running ys ts.
Proof.
  unfold serve.
  destruct (callTool_resolves rt ys ts (name request) (arguments request) [])
    as (r & tr & E).
  unfold run. by rewrite E.
Qed.

Lemma serveAll_running (rt : Runtime) (ys : YouTubeService.t) (ts : TypefullyService.t)
    (requests : list ToolRequest) :
  serveAll rt (Running ys ts) requests = Running ys ts.
Proof.
  unfold serveAll. induction requests as [|request requests IH]; [done|].
  cbn [foldl]. by rewrite serve_running.
Qed.

(** C4 as stated fails: with no [TYPEFULLY_API_KEY] in the environment the
    process ends with status 1 although the SDK accepts the server and the
    transport can be connected. *)
Lemma missing_typefully_key_exits :
  startup Scenario.lenientSdk None Scenario.emptyEnv = Exited 1
  /\ connect Scenario.lenientSdk = Normal ()
  /\ (1 <> 0)%Z.
Proof. split; [vm_compute; reflexivity | done]. Qed.

Lemma typefully_key_lookup (dotenvFile : option environment) (processEnv : environment)
    (k v : jsstring) :
  k <> js "TYPEFULLY_API_KEY" ->
  loadDotenv dotenvFile (<[k := v]> processEnv) !! js "TYPEFULLY_API_KEY"
  = loadDotenv dotenvFile processEnv !! js "TYPEFULLY_API_KEY"
  /\ loadDotenv dotenvFile (delete k processEnv) !! js "TYPEFULLY_API_KEY"
     = loadDotenv dotenvFile processEnv !! js "TYPEFULLY_API_KEY".
Proof.
  intros Hk. unfold loadDotenv.
  by rewrite !lookup_union, lookup_insert_ne, lookup_delete_ne.
Qed.

Lemma startup_exit_agree (sdk : ServerSdk) (dotenvFile : option environment)
    (env env' : environment) (code : Z) :
  loadDotenv dotenvFile env' !! js "TYPEFULLY_API_KEY"
  = loadDotenv dotenvFile env !! js "TYPEFULLY_API_KEY" ->
  startup sdk dotenvFile env' = Exited code <-> startup sdk dotenvFile env = Exited code.
Proof.
  intros H. unfold startup, TypefullyService.new. rewrite H.
  destruct (orElse _ _); [done|].
  destruct (new_Server sdk); [|done].
  destruct (setRequestHandler_ListTools sdk); [|done].
  destruct (setRequestHandler_CallTool sdk); [|done].
  by destruct (connect sdk).
Qed.

(** C4, amended: the process ends with a non-zero status during start-up
    only, with status 1, and never because of a tool call: a running process
    stays running through any sequence of calls.  Start-up ends it when
    [TYPEFULLY_API_KEY] is absent or empty (the constructor of
    [TypefullyService] throws while the module is evaluated) and when the
    transport cannot be connected; when the SDK accepts the construction of
    the server and the registration of the two handlers these are the only
    causes, and otherwise the only further ones are those three steps.
    Whether [SUPADATA_API_KEY] is set has no effect on the exit status. *)
Theorem exit_status_cases
    (rt : Runtime) (sdk : ServerSdk)
    (dotenvFile : option environment) (processEnv : environment) :
  (forall code, startup sdk dotenvFile processEnv = Exited code ->
     code = 1%Z
     /\ (orElse (loadDotenv dotenvFile processEnv !! js "TYPEFULLY_API_KEY") [] = []
         \/ (exists e, new_Server sdk = Abrupt e)
         \/ (exists e, setRequestHandler_ListTools sdk = Abrupt e)
         \/ (exists e, setRequestHandler_CallTool sdk = Abrupt e)
         \/ (exists e, connect sdk = Abrupt e)))
  /\ (orElse (loadDotenv dotenvFile processEnv !! js "TYPEFULLY_API_KEY") [] = [] ->
      startup sdk dotenvFile processEnv = Exited 1)
  /\ ((exists e, connect sdk = Abrupt e) ->
      startup sdk dotenvFile processEnv = Exited 1)
  /\ (new_Server sdk = Normal () ->
      setRequestHandler_ListTools sdk = Normal () ->
      setRequestHandler_CallTool sdk = Normal () ->
      (forall code, startup sdk dotenvFile processEnv = Exited code ->
         orElse (loadDotenv dotenvFile processEnv !! js "TYPEFULLY_API_KEY") [] = []
         \/ exists e, connect sdk = Abrupt e)
      /\ (forall key,
            loadDotenv dotenvFile processEnv !! js "TYPEFULLY_API_KEY" = Some key ->
            key <> [] -> connect sdk = Normal () ->
            startup sdk dotenvFile processEnv
            = Running (YouTubeService.new (loadDotenv dotenvFile processEnv))
                      {| TypefullyService.apiKey := key |}))
  /\ (forall v code,
        (startup sdk dotenvFile (<[js "SUPADATA_API_KEY" := v]> processEnv) = Exited code
         <-> startup sdk dotenvFile processEnv = Exited code)
        /\ (startup sdk dotenvFile (delete (js "SUPADATA_API_KEY") processEnv) = Exited code
            <-> startup sdk dotenvFile processEnv = Exited code))
  /\ (forall ys ts requests, serveAll rt (Running ys ts) requests = Running ys ts).
Proof.
  split; [|split; [|split; [|split; [|split]]]].
  - unfold startup, TypefullyService.new. intros code.
    destruct (orElse _ _) as [|c k]; [intros [= <-]; auto|].
    destruct (new_Server sdk) as [[]|e1]; [|intros [= <-]; eauto 10].
    destruct (setRequestHandler_ListTools sdk) as [[]|e2]; [|intros [= <-]; eauto 10].
    destruct (setRequestHandler_CallTool sdk) as [[]|e3]; [|intros [= <-]; eauto 10].
    destruct (connect sdk) as [[]|e4]; [done|intros [= <-]; eauto 10].
  - unfold startup, TypefullyService.new. by intros ->.
  - unfold startup, TypefullyService.new. intros [e E].
    destruct (orElse _ _); [done|].
    destruct (new_Server sdk); [|done].
    destruct (setRequestHandler_ListTools sdk); [|done].
    destruct (setRequestHandler_CallTool sdk); [|done].
    by rewrite E.
  - unfold startup, TypefullyService.new. intros -> -> ->. split.
    + intros code. destruct (orElse _ _) as [|c k]; [auto|].
      destruct (connect sdk) as [[]|e]; [done|eauto].
    + intros key -> Hk ->. by destruct key.
  - intros v code. split; apply startup_exit_agree;
      by apply typefully_key_lookup.
  - intros ys ts requests. apply serveAll_running.
Qed.

Lemma exit_status_cases_witness :
  startup Scenario.lenientSdk None Scenario.onlySupadataKey = Exited 1
  /\ serveAll (Scenario.runtime Scenario.unreachable Scenario.rejectedDraft)
       (Running Scenario.youtube Scenario.typefully)
       [ {| name := js "nonexistent_tool"; arguments := Scenario.object [] |};
         {| name := js "get_youtube_transcript"; arguments := Scenario.object [] |};
         {| name := js "create_typefully_draft"; arguments := Scenario.helloArgs |} ]
     = Running Scenario.youtube Scenario.typefully.
Proof.
  destruct (exit_status_cases
              (Scenario.runtime Scenario.unreachable Scenario.rejectedDraft)
              Scenario.lenientSdk None Scenario.onlySupadataKey)
    as (_ & Hkey & _ & _ & _ & Hserve).
  split; [apply Hkey; vm_compute; reflexivity | apply Hserve].
Defined.

(** With the key set, an SDK that refuses the registration of the listing
    handler ends start-up with status 1 as well. *)
Lemma startup_refused_registration :
  startup Scenario.strictSdk None Scenario.onlyTypefullyKey = Exited 1.
Proof. vm_compute. reflexivity. Qed.

(** * Further properties of the code *)

(** ** Every call follows one of the paths *)

Lemma callTool_path (rt : Runtime) (ys : YouTubeService.t) (ts : TypefullyService.t)
    (name : jsstring) (args : option value) :
  exists r calls,
    run (callTool rt ys ts name args) = (Normal r, calls)
    /\ CallPath rt ys ts name args r calls.
Proof.
  unfold run.
  destruct (decide (name = js "get_youtube_transcript")) as [->|N1].
  { destruct (YouTubeTranscriptSchema args) as [a|issues] eqn:Ha.
    - destruct (YouTubeService.extractVideoId (videoUrl a)) as [videoId|e] eqn:Hid.
      + destruct (YouTubeService.getTranscript rt ys videoId) as [t|e] eqn:Ht.
        * eexists _, _. split; [|by eapply path_transcript].
          apply callTool_returned. rewrite (dispatch_transcript _ _ _ _ a _ Ha).
          by rewrite Hid, Ht.
        * eexists _, _. split; [|by eapply path_fetch_failed].
          apply callTool_caught. rewrite (dispatch_transcript _ _ _ _ a _ Ha).
          by rewrite Hid, Ht.
      + eexists _, _. split; [|by eapply path_bad_url].
        apply callTool_caught. rewrite (dispatch_transcript _ _ _ _ a _ Ha).
        by rewrite Hid.
    - eexists _, _. split; [|apply (path_invalid _ _ _ _ _ issues)].
      + apply callTool_caught, dispatch_invalid.
        unfold validationIssues. rewrite decide_True by done. by rewrite Ha.
      + unfold validationIssues. rewrite decide_True by done. by rewrite Ha. }
  destruct (decide (name = js "generate_tweets_from_transcript")) as [->|N2].
  { destruct (GenerateTweetsSchema args) as [a|issues] eqn:Ha.
    - eexists _, _. split; [|by eapply path_tweets].
      apply callTool_returned. by rewrite (dispatch_tweets _ _ _ _ a _ Ha).
    - assert (validationIssues (js "generate_tweets_from_transcript") args = Some issues).
      { unfold validationIssues. rewrite decide_False by done.
        rewrite decide_True by done. by rewrite Ha. }
      eexists _, _. split; [|by apply (path_invalid _ _ _ _ _ issues)].
      by apply callTool_caught, dispatch_invalid. }
  destruct (decide (name = js "create_typefully_draft")) as [->|N3].
  { destruct (CreateDraftSchema args) as [a|issues] eqn:Ha.
    - destruct (TypefullyService.createDraft rt ts (arg_content a) (draftOptions a))
        as [draft|e] eqn:Hd.
      + eexists _, _. split; [|by eapply path_draft].
        apply callTool_returned. rewrite (dispatch_draft _ _ _ _ a _ Ha). by rewrite Hd.
      + eexists _, _. split; [|by eapply path_draft_failed].
        apply callTool_returned. rewrite (dispatch_draft _ _ _ _ a _ Ha). by rewrite Hd.
    - assert (validationIssues (js "create_typefully_draft") args = Some issues).
      { unfold validationIssues. do 2 (rewrite decide_False by done).
        rewrite decide_True by done. by rewrite Ha. }
      eexists _, _. split; [|by apply (path_invalid _ _ _ _ _ issues)].
      by apply callTool_caught, dispatch_invalid. }
  assert (name ∉ registeredNames).
  { unfold registeredNames. intros H.
    repeat (apply elem_of_cons in H as [H|H]; [done|]). by apply elem_of_nil in H. }
  eexists _, _. split; [|by apply path_unknown].
  by apply callTool_caught, dispatch_unknown.
Qed.

Lemma callTool_path_of (rt : Runtime) (ys : YouTubeService.t) (ts : TypefullyService.t)
    (name : jsstring) (args : option value) (r : ToolResult) (calls : list ServiceCall) :
  run (callTool rt ys ts name args) = (Normal r, calls) ->
  CallPath rt ys ts name args r calls.
Proof.
  intros H. destruct (callTool_path rt ys ts name args) as (r' & calls' & E & P).
  rewrite E in H. by injection H as <- <-.
Qed.

(** X1: whatever the name and the arguments, the envelope holds exactly one
    content block, of type [text]. *)
Theorem envelope_has_one_text_block
    (rt : Runtime) (ys : YouTubeService.t) (ts : TypefullyService.t)
    (name : jsstring) (args : option value) :
  exists (r : ToolResult) (calls : list ServiceCall) (t : jsstring),
    run (callTool rt ys ts name args) = (Normal r, calls)
    /\ blocks r = [ {| type := js "text"; text := t |} ].
Proof.
  destruct (callTool_path rt ys ts name args) as (r & calls & E & P).
  exists r, calls. destruct P; eexists; (split; [exact E|reflexivity]).
Qed.

(** X2: an envelope flagged [isError: true] always reads [❌ Error: ] followed
    by a message without carriage return, line feed or tab, whatever raised
    the fault. *)
Theorem flagged_envelope_is_sanitized
    (rt : Runtime) (ys : YouTubeService.t) (ts : TypefullyService.t)
    (name : jsstring) (args : option value)
    (r : ToolResult) (calls : list ServiceCall) :
  run (callTool rt ys ts name args) = (Normal r, calls) ->
  isError r = Some true ->
  exists m : jsstring,
    blocks r = [textBlock (Glyph.cross_mark ++ js " Error: " ++ m)]
    /\ (forall c, c ∈ m -> c <> CR /\ c <> LF /\ c <> TAB).
Proof.
  intros E F. apply callTool_path_of in E.
  destruct E; try discriminate F;
    (eexists; split; [reflexivity|apply sanitizedError_clean]).
Qed.

Lemma flagged_envelope_is_sanitized_witness :
  exists m : jsstring,
    blocks (errorResult (ErrorObject (js "too_small" ++ [LF] ++ js "too_small")))
    = [textBlock (Glyph.cross_mark ++ js " Error: " ++ m)]
    /\ (forall c, c ∈ m -> c <> CR /\ c <> LF /\ c <> TAB).
Proof.
  apply (flagged_envelope_is_sanitized
           (Scenario.runtime Scenario.unreachable Scenario.unreachable)
           Scenario.youtube Scenario.typefully
           (js "generate_tweets_from_transcript")
           (Scenario.object [ (js "transcript", VStr []); (js "prompt", VStr []) ])
           _ []).
  - vm_compute. reflexivity.
  - reflexivity.
Defined.

(** X3: the text opens with [❌ Error: ] exactly on the envelopes that are
    flagged [isError: true]; the unflagged report of a draft fault opens with
    [❌ **Error:**] instead. *)
Theorem error_prefix_iff_flagged
    (rt : Runtime) (ys : YouTubeService.t) (ts : TypefullyService.t)
    (name : jsstring) (args : option value)
    (r : ToolResult) (calls : list ServiceCall) (t : jsstring) :
  run (callTool rt ys ts name args) = (Normal r, calls) ->
  blocks r = [textBlock t] ->
  (isError r = Some true <-> startsWith (Glyph.cross_mark ++ js " Error: ") t = true).
Proof.
  intros E B. apply callTool_path_of in E.
  assert (T : t = match blocks r with [b] => text b | _ => [] end) by (by rewrite B).
  clear B. rewrite T. clear T.
  destruct E as [Hn|issues Hv|a e Hn Ha He|a videoId e Hn Ha Hid Ht
                |a videoId t' Hn Ha Hid Ht|a Hn Ha|a draft Hn Ha Hd|a e Hn Ha Hd];
    cbn [blocks text textBlock isError errorResult innerCatchResult].
  1-4: split; [intros _; rewrite app_assoc; apply startsWith_app | done].
  all: split; [done|]; intros Hs; exfalso; revert Hs.
  - unfold transcriptText. by vm_compute.
  - unfold tweetContextText. by vm_compute.
  - unfold draftText. by vm_compute.
  - by vm_compute.
Qed.

Lemma error_prefix_iff_flagged_witness :
  isError (innerCatchResult (ErrorObject (js "Typefully API error: 401 - Invalid API key"
                                          ++ [LF] ++ js "Check your settings")))
  = Some true
  <-> startsWith (Glyph.cross_mark ++ js " Error: ")
        (Glyph.cross_mark ++ js " **Error:** "
         ++ js "Typefully API error: 401 - Invalid API key"
         ++ [LF] ++ js "Check your settings") = true.
Proof.
  apply (error_prefix_iff_flagged
           (Scenario.runtime Scenario.unreachable Scenario.rejectedDraft)
           Scenario.youtube Scenario.typefully
           (js "create_typefully_draft") Scenario.helloArgs _
           [Call_createDraft (js "hello")
              (draftOptions {| arg_content := js "hello"; arg_threadify := None;
                               arg_scheduleDate := None; arg_share := None |})]).
  - vm_compute. reflexivity.
  - reflexivity.
Defined.

(** X4: a tool call goes over the network at most once, drafts are created
    by [create_typefully_draft] only, and a transcript is fetched by
    [get_youtube_transcript] only, for the identifier that [extractVideoId]
    returned for the URL of the call. *)
Theorem network_calls_of_a_tool_call
    (rt : Runtime) (ys : YouTubeService.t) (ts : TypefullyService.t)
    (name : jsstring) (args : option value) :
  (length (List.filter isNetworkCall (snd (run (callTool rt ys ts name args)))) <= 1)%nat
  /\ (forall content options,
        Call_createDraft content options ∈ snd (run (callTool rt ys ts name args)) ->
        name = js "create_typefully_draft")
  /\ (forall videoId,
        Call_getTranscript videoId ∈ snd (run (callTool rt ys ts name args)) ->
        name = js "get_youtube_transcript"
        /\ exists url,
             Call_extractVideoId url ∈ snd (run (callTool rt ys ts name args))
             /\ YouTubeService.extractVideoId url = Normal videoId).
Proof.
  destruct (callTool_path rt ys ts name args) as (r & calls & E & P).
  rewrite E. cbn [snd].
  destruct P as [Hn|issues Hv|a e Hn Ha He|a videoId e Hn Ha Hid Ht
                |a videoId t Hn Ha Hid Ht|a Hn Ha|a draft Hn Ha Hd|a e Hn Ha Hd];
    (split; [simpl; lia|split; [intros content options Hin|intros videoId' Hin]]).
  all: repeat (apply elem_of_cons in Hin as [Hin|Hin]; [try discriminate Hin|]).
  all: try by apply elem_of_nil in Hin.
  all: try done.
  - injection Hin as ->. split; [done|]. exists (videoUrl a). split; [left|done].
  - injection Hin as ->. split; [done|]. exists (videoUrl a). split; [left|done].
Qed.

(** ** What the schemas accept *)

Lemma ap_ok {A B} (f : ZodResult (A -> B)) (x : ZodResult A) (b : B) :
  z.ap f x = ZodOk b -> exists g a, f = ZodOk g /\ x = ZodOk a /\ b = g a.
Proof. destruct f, x; simpl; intros [= <-] || intros [=]; eauto. Qed.

Lemma issuesOf_ap {A B} (f : ZodResult (A -> B)) (x : ZodResult A) :
  issuesOf (z.ap f x) = None <-> issuesOf f = None /\ issuesOf x = None.
Proof. destruct f, x; simpl; intuition congruence. Qed.

Lemma object_ok {A} (shape : gmap jsstring value -> ZodResult A)
    (args : option value) (a : A) :
  z.object shape args = ZodOk a ->
  exists fields, args = Some (VObj fields) /\ shape fields = ZodOk a.
Proof. destruct args as [[]|]; simpl; intros [=] || intros H; eauto. Qed.

Section Fields.

Variable fields : gmap jsstring value.
Variable k : jsstring.

Lemma string_ok (n : nat) (s : jsstring) :
  z.field k (z.string n) fields = ZodOk s <->
  fields !! k = Some (VStr s) /\ (n <= length s)%nat.
Proof.
  unfold z.field, z.string.
  destruct (fields !! k) as [[| | |s'| |]|]; try (split; [done|by intros [[=] _]]).
  destruct (length s' <? n)%nat eqn:E.
  - apply Nat.ltb_lt in E. split; [done|]. intros [[= ->] ?]. lia.
  - apply Nat.ltb_ge in E. split; [by intros [= ->]|by intros [[= ->] _]].
Qed.

Lemma optional_string_ok (o : option jsstring) :
  z.field k (z.optional (z.string 0)) fields = ZodOk o <->
  fields !! k = VStr <$> o.
Proof.
  unfold z.field, z.optional, z.string.
  destruct (fields !! k) as [[| | |s'| |]|], o; simpl; split; congruence.
Qed.

Lemma optional_boolean_ok (o : option bool) :
  z.field k (z.optional z.boolean) fields = ZodOk o <->
  fields !! k = VBool <$> o.
Proof.
  unfold z.field, z.optional, z.boolean.
  destruct (fields !! k) as [[| | |s'| |]|], o; simpl; split; congruence.
Qed.

Lemma optional_number_ok (lo hi : Q) (o : option Q) :
  z.field k (z.optional (z.number lo hi)) fields = ZodOk o <->
  fields !! k = VNum <$> o /\ (forall q, o = Some q -> (lo <= q)%Q /\ (q <= hi)%Q).
Proof.
  unfold z.field, z.optional, z.number.
  destruct (fields !! k) as [v|] eqn:Ev.
  2:{ destruct o; simpl.
      - split; [done|by intros [[=] _]].
      - split; [|done]. intros _. split; [done|]. by intros ? [=]. }
  destruct v as [| |q| | |];
    try (split; [done|]; intros [E _]; destruct o; by vm_compute in E).
  cbn [fmap option_fmap option_map].
  destruct (Qle_bool lo q) eqn:E1; simpl.
  - destruct (Qle_bool q hi) eqn:E2; simpl.
    + apply Qle_bool_iff in E1, E2. split.
      * intros [= <-]. split; [done|]. by intros ? [= <-].
      * destruct o; by intros [[= <-] _].
    + split; [done|]. destruct o as [q'|]; intros [[= <-] H].
      destruct (H q eq_refl) as [_ H2]. apply Qle_bool_iff in H2. congruence.
  - split; [done|]. destruct o as [q'|]; intros [[= <-] H].
    destruct (H q eq_refl) as [H1 _]. apply Qle_bool_iff in H1. congruence.
Qed.

Lemma findEnum_Some {A} (options : list (jsstring * A)) (s : jsstring) :
  is_Some (z.findEnum options s) <-> s ∈ map fst options.
Proof.
  induction options as [|[key a] options IH]; simpl.
  - split; [by intros [? [=]]|by intros ?%elem_of_nil].
  - case_decide as E.
    + subst. split; [intros _; left|eauto].
    + rewrite IH. split; [by right|]. by intros [?|?]%elem_of_cons.
Qed.

Lemma optional_enum_ok {A} (options : list (jsstring * A)) :
  issuesOf (z.field k (z.optional (z.enum options)) fields) = None <->
  fields !! k = None
  \/ exists s, fields !! k = Some (VStr s) /\ s ∈ map fst options.
Proof.
  unfold z.field, z.optional, z.enum.
  destruct (fields !! k) as [[| | |s| |]|]; simpl;
    try (split; [done|by intros [[=]|(? & [=] & _)]]);
    try (split; [by left|done]).
  pose proof (findEnum_Some options s) as F.
  destruct (z.findEnum options s) as [a|]; simpl.
  - split; [|done]. intros _. right. exists s. split; [done|]. apply F. eauto.
  - split; [done|]. intros [[=]|(s' & [= <-] & Hin)]. apply F in Hin. by destruct Hin.
Qed.

End Fields.

Lemma issuesOf_None {A} (r : ZodResult A) :
  issuesOf r = None <-> exists a, r = ZodOk a.
Proof.
  destruct r; simpl.
  - split; eauto.
  - split; [done|by intros [? [=]]].
Qed.

Section Accepts.

Variable fields : gmap jsstring value.
Variable k : jsstring.

Lemma string_accepts (n : nat) :
  issuesOf (z.field k (z.string n) fields) = None <->
  exists s, fields !! k = Some (VStr s) /\ (n <= length s)%nat.
Proof.
  rewrite issuesOf_None. split.
  - intros [s H]. exists s. by apply string_ok.
  - intros [s H]. exists s. by apply string_ok.
Qed.

Lemma optional_string_accepts :
  issuesOf (z.field k (z.optional (z.string 0)) fields) = None <->
  fields !! k = None \/ exists s, fields !! k = Some (VStr s).
Proof.
  rewrite issuesOf_None. split.
  - intros [[s|] H%optional_string_ok]; eauto.
  - intros [H|[s H]].
    + exists None. by apply optional_string_ok.
    + exists (Some s). by apply optional_string_ok.
Qed.

Lemma optional_boolean_accepts :
  issuesOf (z.field k (z.optional z.boolean) fields) = None <->
  fields !! k = None \/ exists b, fields !! k = Some (VBool b).
Proof.
  rewrite issuesOf_None. split.
  - intros [[b|] H%optional_boolean_ok]; eauto.
  - intros [H|[b H]].
    + exists None. by apply optional_boolean_ok.
    + exists (Some b). by apply optional_boolean_ok.
Qed.

Lemma optional_number_accepts (lo hi : Q) :
  issuesOf (z.field k (z.optional (z.number lo hi)) fields) = None <->
  fields !! k = None
  \/ exists q, fields !! k = Some (VNum q) /\ (lo <= q)%Q /\ (q <= hi)%Q.
Proof.
  rewrite issuesOf_None. split.
  - intros [[q|] [H R]%optional_number_ok]; [right|by left].
    exists q. split; [done|]. by apply R.
  - intros [H|(q & H & R)].
    + exists None. apply optional_number_ok. split; [done|]. by intros ? [=].
    + exists (Some q). apply optional_number_ok. split; [done|]. by intros ? [= <-].
Qed.

End Accepts.

Lemma transcript_accepts (args : option value) :
  validationIssues (js "get_youtube_transcript") args = None <->
  exists fields s,
    args = Some (VObj fields)
    /\ fields !! js "videoUrl" = Some (VStr s) /\ s <> [].
Proof.
  unfold validationIssues. rewrite decide_True by done.
  unfold YouTubeTranscriptSchema, z.object.
  destruct args as [[| | | | |fields]|];
    try (split; [done|by intros (? & ? & [=] & _)]).
  rewrite issuesOf_ap, string_accepts. cbn [issuesOf]. split.
  - intros [_ (s & H & L)]. exists fields, s. split; [done|]. split; [done|].
    intros ->. simpl in L. lia.
  - intros (f & s & [= <-] & H & L). split; [done|]. exists s. split; [done|].
    destruct s; [done|]. simpl. lia.
Qed.

(** X5: [get_youtube_transcript] accepts its arguments exactly when they are
    an object whose [videoUrl] is a non-empty string; an empty string is
    rejected although the advertised schema only asks for a string. *)
Theorem transcript_arguments_accepted_iff (args : option value) :
  validationIssues (js "get_youtube_transcript") args = None <->
  exists fields s,
    args = Some (VObj fields)
    /\ fields !! js "videoUrl" = Some (VStr s) /\ s <> [].
Proof. apply transcript_accepts. Qed.

Lemma draft_accepts (args : option value) :
  validationIssues (js "create_typefully_draft") args = None <->
  exists fields,
    args = Some (VObj fields)
    /\ (exists s, fields !! js "content" = Some (VStr s))
    /\ (fields !! js "threadify" = None
        \/ exists b, fields !! js "threadify" = Some (VBool b))
    /\ (fields !! js "scheduleDate" = None
        \/ exists s, fields !! js "scheduleDate" = Some (VStr s))
    /\ (fields !! js "share" = None
        \/ exists b, fields !! js "share" = Some (VBool b)).
Proof.
  unfold validationIssues. do 2 (rewrite decide_False by done).
  rewrite decide_True by done.
  unfold CreateDraftSchema, z.object.
  destruct args as [[| | | | |fields]|];
    try (split; [done|by intros (? & [=] & _)]).
  rewrite !issuesOf_ap, string_accepts, !optional_boolean_accepts,
    optional_string_accepts. cbn [issuesOf]. split.
  - intros ((((_ & (s & H & _)) & T) & D) & S). exists fields. eauto 10.
  - intros (f & [= <-] & (s & H) & T & D & S).
    repeat split; try done. exists s. split; [done|lia].
Qed.

(** X6: [create_typefully_draft] accepts its arguments exactly when they are
    an object whose [content] is a string (the empty string included), whose
    [threadify] and [share] are absent or booleans, and whose [scheduleDate]
    is absent or a string. *)
Theorem draft_arguments_accepted_iff (args : option value) :
  validationIssues (js "create_typefully_draft") args = None <->
  exists fields,
    args = Some (VObj fields)
    /\ (exists s, fields !! js "content" = Some (VStr s))
    /\ (fields !! js "threadify" = None
        \/ exists b, fields !! js "threadify" = Some (VBool b))
    /\ (fields !! js "scheduleDate" = None
        \/ exists s, fields !! js "scheduleDate" = Some (VStr s))
    /\ (fields !! js "share" = None
        \/ exists b, fields !! js "share" = Some (VBool b)).
Proof. apply draft_accepts. Qed.

Lemma tweets_accepts (args : option value) :
  validationIssues (js "generate_tweets_from_transcript") args = None <->
  exists fields,
    args = Some (VObj fields)
    /\ (exists s, fields !! js "transcript" = Some (VStr s) /\ s <> [])
    /\ (exists s, fields !! js "prompt" = Some (VStr s) /\ s <> [])
    /\ (fields !! js "maxTweets" = None
        \/ exists q, fields !! js "maxTweets" = Some (VNum q)
                     /\ (1 <= q)%Q /\ (q <= 10)%Q)
    /\ (fields !! js "style" = None
        \/ exists s, fields !! js "style" = Some (VStr s)
                     /\ s ∈ [ js "conversational"; js "informative";
                              js "engaging"; js "professional" ])
    /\ (fields !! js "format" = None
        \/ exists s, fields !! js "format" = Some (VStr s)
                     /\ s ∈ [ js "thread"; js "single" ]).
Proof.
  unfold validationIssues. rewrite decide_False by done.
  rewrite decide_True by done.
  unfold GenerateTweetsSchema, z.object.
  destruct args as [[| | | | |fields]|];
    try (split; [done|by intros (? & [=] & _)]).
  rewrite !issuesOf_ap, !string_accepts, optional_number_accepts,
    !optional_enum_ok. cbn [issuesOf map fst].
  assert (L : forall s : jsstring, (1 <= length s)%nat <-> s <> []).
  { intros [|c s]; simpl; split; try done; lia. }
  split.
  - intros (((((_ & (s & H & Hs)) & (p & P & Hp)) & M) & S) & F).
    exists fields. split; [done|].
    split; [exists s; by rewrite <- L|]. split; [exists p; by rewrite <- L|]. done.
  - intros (f & [= <-] & (s & H & Hs) & (p & P & Hp) & M & S & F).
    repeat split; try done.
    + exists s. by rewrite L.
    + exists p. by rewrite L.
Qed.

(** X7: [generate_tweets_from_transcript] accepts its arguments exactly when
    they are an object with non-empty strings [transcript] and [prompt], a
    [maxTweets] that is absent or a number between 1 and 10 (an integer is
    not asked for), and [style] and [format] absent or one of the listed
    literals. *)
Theorem tweet_arguments_accepted_iff (args : option value) :
  validationIssues (js "generate_tweets_from_transcript") args = None <->
  exists fields,
    args = Some (VObj fields)
    /\ (exists s, fields !! js "transcript" = Some (VStr s) /\ s <> [])
    /\ (exists s, fields !! js "prompt" = Some (VStr s) /\ s <> [])
    /\ (fields !! js "maxTweets" = None
        \/ exists q, fields !! js "maxTweets" = Some (VNum q)
                     /\ (1 <= q)%Q /\ (q <= 10)%Q)
    /\ (fields !! js "style" = None
        \/ exists s, fields !! js "style" = Some (VStr s)
                     /\ s ∈ [ js "conversational"; js "informative";
                              js "engaging"; js "professional" ])
    /\ (fields !! js "format" = None
        \/ exists s, fields !! js "format" = Some (VStr s)
                     /\ s ∈ [ js "thread"; js "single" ]).
Proof. apply tweets_accepts. Qed.

(** X8: for each of the three tools, arguments that are not an object
    (absent, [null], a boolean, a number, a string, an array) are one
    validation fault at the root, answered by a flagged envelope without any
    service call. *)
Theorem non_object_arguments_rejected
    (rt : Runtime) (ys : YouTubeService.t) (ts : TypefullyService.t)
    (name : jsstring) (args : option value) :
  name ∈ registeredNames ->
  (forall fields, args <> Some (VObj fields)) ->
  validationIssues name args = Some [ {| code := invalid_type; path := [] |} ]
  /\ run (callTool rt ys ts name args)
     = (Normal (errorResult
                  (ErrorObject (zodErrorMessage rt [ {| code := invalid_type; path := [] |} ]))),
        []).
Proof.
  intros Hn Hargs.
  assert (V : validationIssues name args = Some [ {| code := invalid_type; path := [] |} ]).
  { unfold registeredNames in Hn.
    repeat (apply elem_of_cons in Hn as [->|Hn]); [| | |by apply elem_of_nil in Hn];
      unfold validationIssues;
      repeat (rewrite decide_False by done); rewrite decide_True by done;
      destruct args as [[| | | | |fields]|]; try done; by destruct (Hargs fields). }
  split; [done|]. unfold run. by apply callTool_caught, dispatch_invalid.
Qed.

Lemma non_object_arguments_rejected_witness :
  validationIssues (js "create_typefully_draft") None
  = Some [ {| code := invalid_type; path := [] |} ]
  /\ run (callTool (Scenario.runtime Scenario.unreachable Scenario.unreachable)
            Scenario.youtube Scenario.typefully (js "create_typefully_draft") None)
     = (Normal (errorResult (ErrorObject (js "invalid_type"))), []).
Proof.
  apply (non_object_arguments_rejected
           (Scenario.runtime Scenario.unreachable Scenario.unreachable)
           Scenario.youtube Scenario.typefully (js "create_typefully_draft") None).
  - apply (bool_decide_unpack _). vm_compute. exact I.
  - done.
Defined.

(** X9: arguments accepted for the tweet tool carry a [maxTweets] within 1
    and 10 when they carry one, so the effective [maxTweets] of the context
    is within 1 and 10 and never zero: the text shows a number, never
    [auto-determined]. *)
Theorem validated_maxTweets_in_range
    (rt : Runtime) (args : option value) (a : GenerateTweetsArgs) :
  GenerateTweetsSchema args = ZodOk a ->
  (forall q, arg_maxTweets a = Some q -> (1 <= q)%Q /\ (q <= 10)%Q)
  /\ (1 <= maxTweets (generateTweetContext (numberToString rt)
                        (arg_transcript a) (arg_prompt a) (tweetOptions a)))%Q
  /\ (maxTweets (generateTweetContext (numberToString rt)
                   (arg_transcript a) (arg_prompt a) (tweetOptions a)) <= 10)%Q
  /\ Qeq_bool (maxTweets (generateTweetContext (numberToString rt)
                            (arg_transcript a) (arg_prompt a) (tweetOptions a))) 0
     = false.
Proof.
  intros H. unfold GenerateTweetsSchema in H.
  apply object_ok in H as (fields & -> & H).
  apply ap_ok in H as (g5 & fmt & H & _ & ->).
  apply ap_ok in H as (g4 & sty & H & _ & ->).
  apply ap_ok in H as (g3 & mx & H & Hmx & ->).
  apply ap_ok in H as (g2 & pr & H & _ & ->).
  apply ap_ok in H as (g1 & tr & [= <-] & _ & ->).
  apply optional_number_ok in Hmx as [_ R].
  cbn [arg_maxTweets arg_transcript arg_prompt].
  assert (B : (1 <= maxTweets (generateTweetContext (numberToString rt) tr pr
                     (tweetOptions (Build_GenerateTweetsArgs tr pr mx sty fmt))))%Q
              /\ (maxTweets (generateTweetContext (numberToString rt) tr pr
                     (tweetOptions (Build_GenerateTweetsArgs tr pr mx sty fmt))) <= 10)%Q).
  { rewrite generateTweetContext_fields. cbn [maxTweets tweetOptions opt_format
      opt_maxTweets arg_format arg_maxTweets].
    destruct (Format_eqb _ _); [split; by apply Qle_bool_iff|].
    destruct mx as [q|]; simpl; [by apply R|split; by apply Qle_bool_iff]. }
  split; [done|]. split; [apply B|]. split; [apply B|].
  apply not_true_is_false. intros E%Qeq_bool_iff.
  destruct B as [B _]. rewrite E in B. by apply Qle_bool_iff in B.
Qed.

Lemma validated_maxTweets_in_range_witness :
  (1 <= maxTweets (generateTweetContext
                     (numberToString (Scenario.runtime Scenario.unreachable Scenario.unreachable))
                     (js "t") (js "p")
                     (tweetOptions {| arg_transcript := js "t"; arg_prompt := js "p";
                                      arg_maxTweets := Some 7%Q; arg_style := None;
                                      arg_format := Some single |})))%Q.
Proof.
  destruct (validated_maxTweets_in_range
              (Scenario.runtime Scenario.unreachable Scenario.unreachable)
              Scenario.singleTweetArgs
              {| arg_transcript := js "t"; arg_prompt := js "p";
                 arg_maxTweets := Some 7%Q; arg_style := None;
                 arg_format := Some single |})
    as (_ & H & _).
  - vm_compute. reflexivity.
  - exact H.
Defined.

(** ** The advertised catalogue against the dispatcher *)

(** X10: the names advertised by the listing handler are pairwise distinct,
    and they are exactly the names that the dispatcher does not answer with
    the unknown-tool envelope. *)
Theorem advertised_names_are_dispatched (name : jsstring) :
  NoDup (map Catalog.name Catalog.listTools)
  /\ (name ∉ map Catalog.name Catalog.listTools <->
      forall rt ys ts args,
        run (callTool rt ys ts name args)
        = (Normal (errorResult (ErrorObject (js "Unknown tool: " ++ name))), [])).
Proof.
  split.
  - apply (bool_decide_unpack _). vm_compute. exact I.
  - change (map Catalog.name Catalog.listTools) with registeredNames. split.
    + intros Hn rt ys ts args. unfold run. by apply callTool_caught, dispatch_unknown.
    + intros H Hin. unfold registeredNames in Hin.
      specialize (H Samples.quietRuntime Scenario.youtube Scenario.typefully None).
      repeat (apply elem_of_cons in Hin as [->|Hin]);
        [by vm_compute in H ..|by apply elem_of_nil in Hin].
Qed.

(** X11: for every advertised tool the advertised properties are the keys
    that its schema reads, in the same order, and a property is listed as
    required exactly when every object lacking it is rejected. *)
Theorem advertised_fields_match_validation (d : Catalog.ToolDescriptor) :
  d ∈ Catalog.listTools ->
  map fst (Catalog.properties (Catalog.inputSchema d)) = declaredFields (Catalog.name d)
  /\ forall k,
       k ∈ map fst (Catalog.properties (Catalog.inputSchema d)) ->
       (k ∈ Catalog.required (Catalog.inputSchema d) <->
        forall fields : gmap jsstring value,
          fields !! k = None ->
          validationIssues (Catalog.name d) (Some (VObj fields)) <> None).
Proof.
  intros Hd. unfold Catalog.listTools in Hd.
  repeat (apply elem_of_cons in Hd as [->|Hd]); [| | |by apply elem_of_nil in Hd];
    (split; [reflexivity|]);
    cbn [Catalog.inputSchema Catalog.properties Catalog.required Catalog.name map fst];
    intros k Hk;
    repeat (apply elem_of_cons in Hk as [->|Hk]); try (by apply elem_of_nil in Hk).
  (* required keys: their absence is a fault *)
  all: try (split;
            [ intros _ fields Hnone Hok;
              first [ apply transcript_accepts in Hok as (f & s & [= <-] & Hs & _)
                    | apply tweets_accepts in Hok
                        as (f & [= <-] & (s & Hs & _) & (s' & Hs' & _) & _)
                    | apply draft_accepts in Hok as (f & [= <-] & (s & Hs) & _) ];
              congruence
            | intros _; apply (bool_decide_unpack _); vm_compute; exact I ]).
  (* optional keys: some accepted object lacks them *)
  all: split; [ intros Hin; exfalso; revert Hin; apply (bool_decide_unpack _);
                vm_compute; exact I | intros H; exfalso ].
  1-3: by apply (H Samples.tweetFields); vm_compute.
  all: by apply (H Scenario.draftFields); vm_compute.
Qed.

Lemma advertised_fields_match_validation_witness :
  js "prompt" ∈ [ js "transcript"; js "prompt" ] <->
  forall fields : gmap jsstring value,
    fields !! js "prompt" = None ->
    validationIssues (js "generate_tweets_from_transcript") (Some (VObj fields)) <> None.
Proof.
  eassert (Hd : _ ∈ Catalog.listTools) by (unfold Catalog.listTools; right; left).
  destruct (advertised_fields_match_validation _ Hd) as [_ H].
  apply (H (js "prompt")). apply (bool_decide_unpack _). vm_compute. exact I.
Defined.

Lemma tweets_fields_accepts (fields : gmap jsstring value) :
  validationIssues (js "generate_tweets_from_transcript") (Some (VObj fields)) = None <->
  (exists s, fields !! js "transcript" = Some (VStr s) /\ s <> [])
  /\ (exists s, fields !! js "prompt" = Some (VStr s) /\ s <> [])
  /\ (fields !! js "maxTweets" = None
      \/ exists q, fields !! js "maxTweets" = Some (VNum q)
                   /\ (1 <= q)%Q /\ (q <= 10)%Q)
  /\ (fields !! js "style" = None
      \/ exists s, fields !! js "style" = Some (VStr s)
                   /\ s ∈ [ js "conversational"; js "informative";
                            js "engaging"; js "professional" ])
  /\ (fields !! js "format" = None
      \/ exists s, fields !! js "format" = Some (VStr s)
                   /\ s ∈ [ js "thread"; js "single" ]).
Proof.
  rewrite tweets_accepts. split.
  - by intros (f & [= <-] & H).
  - intros H. by exists fields.
Qed.

(** X12: the enumerations and the numeric range that the catalogue advertises
    are the ones enforced.  Starting from accepted arguments, setting a
    property that advertises an [enum] to a string keeps them accepted
    exactly when the string is in that list, and setting a property that
    advertises [minimum] and [maximum] to a number keeps them accepted
    exactly when the number lies between the two. *)
Theorem advertised_constraints_enforced
    (d : Catalog.ToolDescriptor) (k : jsstring) (p : Catalog.Property)
    (fields : gmap jsstring value) :
  d ∈ Catalog.listTools ->
  (k, p) ∈ Catalog.properties (Catalog.inputSchema d) ->
  validationIssues (Catalog.name d) (Some (VObj fields)) = None ->
  (forall L s,
     Catalog.enum p = Some L ->
     (validationIssues (Catalog.name d) (Some (VObj (<[k := VStr s]> fields))) = None
      <-> s ∈ L))
  /\ (forall lo hi q,
        Catalog.minimum p = Some lo -> Catalog.maximum p = Some hi ->
        (validationIssues (Catalog.name d) (Some (VObj (<[k := VNum q]> fields))) = None
         <-> (lo <= q)%Q /\ (q <= hi)%Q)).
Proof.
  intros Hd Hp Hok. unfold Catalog.listTools in Hd.
  repeat (apply elem_of_cons in Hd as [->|Hd]); [| | |by apply elem_of_nil in Hd];
    cbn [Catalog.inputSchema Catalog.properties Catalog.name] in *;
    repeat (apply elem_of_cons in Hp as [[= -> ->]|Hp]);
    try (by apply elem_of_nil in Hp);
    (split; [intros L s [= <-] | intros lo hi q [= <-] [= <-]]).
  - (* maxTweets *)
    apply tweets_fields_accepts in Hok as (T & P & _ & S & F).
    rewrite tweets_fields_accepts.
    rewrite lookup_insert_eq, !lookup_insert_ne by done. split.
    + intros (_ & _ & [[=]|(q' & [= <-] & R)] & _). done.
    + intros R. repeat split; try done. right. by exists q.
  - (* style *)
    apply tweets_fields_accepts in Hok as (T & P & M & _ & F).
    rewrite tweets_fields_accepts.
    rewrite lookup_insert_eq, !lookup_insert_ne by done. split.
    + intros (_ & _ & _ & [[=]|(s' & [= <-] & R)] & _). done.
    + intros R. repeat split; try done. right. by exists s.
  - (* format *)
    apply tweets_fields_accepts in Hok as (T & P & M & S & _).
    rewrite tweets_fields_accepts.
    rewrite lookup_insert_eq, !lookup_insert_ne by done. split.
    + intros (_ & _ & _ & _ & [[=]|(s' & [= <-] & R)]). done.
    + intros R. repeat split; try done. right. by exists s.
Qed.

Lemma advertised_constraints_enforced_witness :
  validationIssues (js "generate_tweets_from_transcript")
    (Some (VObj (<[js "maxTweets" := VNum (5 # 2)]> Samples.tweetFields))) = None
  <-> (1 <= 5 # 2)%Q /\ (5 # 2 <= 10)%Q.
Proof.
  eassert (Hd : _ ∈ Catalog.listTools) by (unfold Catalog.listTools; right; left).
  match type of Hd with
  | ?d ∈ _ =>
      eassert (Hp : (js "maxTweets", _) ∈ Catalog.properties (Catalog.inputSchema d))
        by (cbn [Catalog.inputSchema Catalog.properties]; right; right; left)
  end.
  destruct (advertised_constraints_enforced _ _ _ Samples.tweetFields Hd Hp) as [_ H].
  - vm_compute. reflexivity.
  - apply (H 1%Q 10%Q (5 # 2)%Q); reflexivity.
Defined.

(** ** The draft tool *)

(** X13: what is posted for accepted draft arguments.  The payload carries
    the [content] string of the arguments; [threadify] and [share] exactly
    when the arguments have them, [false] included (the advertised default
    [false] is not filled in); [schedule-date] only for a non-empty
    [scheduleDate]; and never the two auto-plug fields.  The draft is created
    exactly when the endpoint answers that payload, sent with the service's
    key, with data. *)
Theorem draft_payload_from_arguments
    (rt : Runtime) (ts : TypefullyService.t)
    (fields : gmap jsstring value) (a : CreateDraftArgs) :
  CreateDraftSchema (Some (VObj fields)) = ZodOk a ->
  fields !! js "content"
  = Some (VStr (payload_content
                  (TypefullyService.buildPayload (arg_content a) (draftOptions a))))
  /\ fields !! js "threadify"
     = VBool <$> payload_threadify
                   (TypefullyService.buildPayload (arg_content a) (draftOptions a))
  /\ fields !! js "share"
     = VBool <$> payload_share
                   (TypefullyService.buildPayload (arg_content a) (draftOptions a))
  /\ payload_schedule_date
       (TypefullyService.buildPayload (arg_content a) (draftOptions a))
     = match fields !! js "scheduleDate" with
       | Some (VStr (c :: r)) => Some (c :: r)
       | _ => None
       end
  /\ payload_auto_retweet_enabled
       (TypefullyService.buildPayload (arg_content a) (draftOptions a)) = None
  /\ payload_auto_plug_enabled
       (TypefullyService.buildPayload (arg_content a) (draftOptions a)) = None
  /\ (forall draft,
        TypefullyService.createDraft rt ts (arg_content a) (draftOptions a) = Normal draft
        <-> axios_post_drafts rt (TypefullyService.apiKey ts)
              (TypefullyService.buildPayload (arg_content a) (draftOptions a))
            = AxiosData draft).
Proof.
  intros H. unfold CreateDraftSchema in H.
  apply object_ok in H as (f & [= <-] & H).
  apply ap_ok in H as (g4 & sh & H & Hsh & ->).
  apply ap_ok in H as (g3 & sd & H & Hsd & ->).
  apply ap_ok in H as (g2 & th & H & Hth & ->).
  apply ap_ok in H as (g1 & ct & [= <-] & Hct & ->).
  apply string_ok in Hct as [Hct _].
  apply optional_boolean_ok in Hsh, Hth. apply optional_string_ok in Hsd.
  cbn -[js]. rewrite Hsd. repeat split; try done.
  - by destruct sd as [[|c r]|].
  - unfold TypefullyService.createDraft. cbn -[js].
    destruct (axios_post_drafts _ _ _); by intros [= <-].
  - unfold TypefullyService.createDraft. cbn -[js]. by intros ->.
Qed.

Lemma draft_payload_from_arguments_witness :
  payload_threadify
    (TypefullyService.buildPayload (js "hello")
       (draftOptions {| arg_content := js "hello"; arg_threadify := Some false;
                        arg_scheduleDate := Some []; arg_share := None |}))
  = Some false
  /\ payload_schedule_date
       (TypefullyService.buildPayload (js "hello")
          (draftOptions {| arg_content := js "hello"; arg_threadify := Some false;
                           arg_scheduleDate := Some []; arg_share := None |}))
     = None.
Proof.
  destruct (draft_payload_from_arguments
              (Scenario.runtime Scenario.unreachable Scenario.rejectedDraft)
              Scenario.typefully Samples.draftFieldsFull
              {| arg_content := js "hello"; arg_threadify := Some false;
                 arg_scheduleDate := Some []; arg_share := None |})
    as (_ & Ht & _ & Hs & _).
  - vm_compute. reflexivity.
  - split.
    + cbn [arg_content] in Ht.
      destruct (payload_threadify _) as [[]|]; [by vm_compute in Ht|done|by vm_compute in Ht].
    + cbn [arg_content] in Hs. rewrite Hs. vm_compute. reflexivity.
Defined.

Lemma includes_label (label v rest : jsstring) :
  includes (label ++ v) ((SP :: label) ++ v ++ rest) = true.
Proof.
  change ((SP :: label) ++ v ++ rest) with ([SP] ++ label ++ v ++ rest).
  rewrite (app_assoc label). apply includes_skip. apply includes_here.
Qed.

Ltac find_labelled :=
  repeat first [ apply includes_label | apply includes_skip ].

(** X14: when the draft is created, the envelope is not flagged, the only
    service call is [createDraft], and the text shows the draft's id and
    status, [Yes] after [Threadified:] exactly when [threadify] was [true],
    and the share URL or [Not shared]. *)
Theorem draft_success_envelope
    (rt : Runtime) (ys : YouTubeService.t) (ts : TypefullyService.t)
    (args : option value) (a : CreateDraftArgs) (draft : TypefullyDraftResponse) :
  CreateDraftSchema args = ZodOk a ->
  TypefullyService.createDraft rt ts (arg_content a) (draftOptions a) = Normal draft ->
  exists t : jsstring,
    run (callTool rt ys ts (js "create_typefully_draft") args)
    = (Normal {| blocks := [textBlock t]; isError := None |},
       [ Call_createDraft (arg_content a) (draftOptions a) ])
    /\ includes (js "**Draft ID:** " ++ id draft) t = true
    /\ includes (js "**Status:** " ++ status draft) t = true
    /\ includes (js "**Created:** " ++ dateToLocaleString rt (created_at draft)) t = true
    /\ includes (js "**Threadified:** "
                 ++ if bool_decide (arg_threadify a = Some true) then js "Yes" else js "No")
         t = true
    /\ includes (js "**Share URL:** "
                 ++ match share_url draft with
                    | Some (c :: r) => c :: r
                    | _ => js "Not shared"
                    end) t = true.
Proof.
  intros Ha Hd. exists (draftText rt draft (arg_threadify a)). split.
  - unfold run. apply callTool_returned.
    rewrite (dispatch_draft _ _ _ _ a _ Ha). by rewrite Hd.
  - unfold draftText.
    assert (T : (if default false (arg_threadify a) then js "Yes" else js "No")
                = if bool_decide (arg_threadify a = Some true) then js "Yes" else js "No")
      by (by destruct (arg_threadify a) as [[]|]).
    rewrite T. clear T. unfold orElse.
    repeat split; find_labelled.
Qed.

Lemma draft_success_envelope_witness :
  exists t : jsstring,
    run (callTool (Scenario.runtime Scenario.unreachable (AxiosData Samples.createdDraft))
           Scenario.youtube Scenario.typefully
           (js "create_typefully_draft") Scenario.helloArgs)
    = (Normal {| blocks := [textBlock t]; isError := None |},
       [ Call_createDraft (js "hello")
           (draftOptions {| arg_content := js "hello"; arg_threadify := None;
                            arg_scheduleDate := None; arg_share := None |}) ])
    /\ includes (js "**Draft ID:** d-42") t = true
    /\ includes (js "**Threadified:** No") t = true
    /\ includes (js "**Share URL:** Not shared") t = true.
Proof.
  destruct (draft_success_envelope
              (Scenario.runtime Scenario.unreachable (AxiosData Samples.createdDraft))
              Scenario.youtube Scenario.typefully Scenario.helloArgs
              {| arg_content := js "hello"; arg_threadify := None;
                 arg_scheduleDate := None; arg_share := None |}
              Samples.createdDraft)
    as (t & Hrun & Hid & _ & _ & Hth & Hsh).
  - vm_compute. reflexivity.
  - vm_compute. reflexivity.
  - exists t. split; [exact Hrun|]. split; [exact Hid|]. split; [exact Hth|exact Hsh].
Defined.


(** ** The transcript tool *)



(** ** Video identifiers, continued *)









(** X17: an input without a dot matches no URL shape, so it is accepted only
    as a bare identifier: unless it is exactly eleven characters of
    [[A-Za-z0-9_-]], the empty string included, [extractVideoId] fails with
    [Invalid YouTube URL or video ID]. *)
Theorem extractVideoId_rejects (url : jsstring) :
  46 ∉ url ->
  length url <> 11%nat \/ forallb YouTubeService.isIdChar url = false ->
  YouTubeService.extractVideoId url
  = Abrupt (ErrorObject (js "Invalid YouTube URL or video ID")).
Proof.
  intros Hdot Hbad. unfold YouTubeService.extractVideoId.
  rewrite matchUrlPattern_no_dot by done. unfold YouTubeService.matchBareId.
  destruct Hbad as [L|F].
  - apply Nat.eqb_neq in L. by rewrite L.
  - by rewrite F, andb_false_r.
Qed.

Lemma extractVideoId_rejects_witness :
  YouTubeService.extractVideoId [] = Abrupt (ErrorObject (js "Invalid YouTube URL or video ID"))
  /\ YouTubeService.extractVideoId (js "abc1234567")
     = Abrupt (ErrorObject (js "Invalid YouTube URL or video ID")).
Proof.
  split.
  - apply extractVideoId_rejects; [by intros ?%elem_of_nil|by left].
  - apply extractVideoId_rejects.
    + apply (bool_decide_unpack _). vm_compute. exact I.
    + left. vm_compute. lia.
Defined.

(** ** The readable text of a transcript *)

Lemma trim_infix (s : jsstring) :
  exists w v, s = w ++ trim s ++ v
              /\ forallb isWhiteSpace w = true /\ forallb isWhiteSpace v = true.
Proof.
  unfold trim.
  destruct (trimStart_suffix s) as (w & E & W).
  destruct (trimEnd_prefix (trimStart s)) as (v & E' & V).
  exists w, v. split; [|done]. by rewrite <- E', <- E.
Qed.

Lemma filter_join (P : N -> bool) (l : list jsstring) :
  P SP = false ->
  List.filter P (join [SP] l) = concat (map (List.filter P) l).
Proof.
  intros HP. induction l as [|x l IH]; [done|].
  destruct l as [|y l].
  - simpl. by rewrite app_nil_r.
  - change (join [SP] (x :: y :: l)) with (x ++ [SP] ++ join [SP] (y :: l)).
    rewrite !List.filter_app, IH. simpl. by rewrite HP.
Qed.

(** X18: the readable text of a transcript is normalised.  Its only blank
    character is the space, no blank follows a blank, and it neither starts
    nor ends with a blank. *)
Theorem transcriptToText_normalised (t : TranscriptResponse) :
  (forall c, c ∈ YouTubeService.transcriptToText t -> isWhiteSpace c = true -> c = SP)
  /\ (forall pre a b post,
        YouTubeService.transcriptToText t = pre ++ a :: b :: post ->
        isWhiteSpace a = true -> isWhiteSpace b = false)
  /\ (forall c, head (YouTubeService.transcriptToText t) = Some c -> isWhiteSpace c = false)
  /\ (forall c, last (YouTubeService.transcriptToText t) = Some c -> isWhiteSpace c = false).
Proof.
  unfold YouTubeService.transcriptToText.
  split; [|split; [|split; [apply trim_head|apply trim_last]]].
  - intros c Hc%trim_sub W.
    apply replaceWhiteSpaceRuns_elem in Hc as [->|[_ Hc]]; [done|congruence].
  - intros pre a b post E.
    destruct (trim_infix (replaceWhiteSpaceRuns
                (join [SP] (map seg_text (content t))))) as (w & v & F & _).
    rewrite E in F.
    apply (replaceWhiteSpaceRuns_single
             (join [SP] (map seg_text (content t))) (w ++ pre) (post ++ v)).
    rewrite F. by rewrite <- !app_assoc.
Qed.

(** X19: the readable text keeps exactly the non-blank characters of the
    segments, in order; it is empty exactly when the segments hold nothing
    but blanks (no segment at all included). *)
Theorem transcriptToText_content (t : TranscriptResponse) :
  List.filter (fun c => negb (isWhiteSpace c)) (YouTubeService.transcriptToText t)
  = concat (map (fun s => List.filter (fun c => negb (isWhiteSpace c)) (seg_text s))
              (content t))
  /\ (YouTubeService.transcriptToText t = [] <->
      forall s c, s ∈ content t -> c ∈ seg_text s -> isWhiteSpace c = true).
Proof.
  assert (Hnb : forall c, negb (isWhiteSpace c) = true -> isWhiteSpace c = false)
    by (intros c; by destruct (isWhiteSpace c)).
  assert (E : List.filter (fun c => negb (isWhiteSpace c)) (YouTubeService.transcriptToText t)
              = concat (map (fun s => List.filter (fun c => negb (isWhiteSpace c)) (seg_text s))
                          (content t))).
  { unfold YouTubeService.transcriptToText.
    rewrite filter_trim, filter_replaceWhiteSpaceRuns, filter_join by done.
    by rewrite map_map. }
  split; [exact E|]. split.
  - intros Z s c Hs Hc. rewrite Z in E. simpl in E.
    destruct (isWhiteSpace c) eqn:W; [done|]. exfalso.
    assert (Hin : c ∈ concat (map (fun s => List.filter (fun c => negb (isWhiteSpace c))
                                             (seg_text s)) (content t))).
    { apply list_elem_of_In, in_concat.
      exists (List.filter (fun c => negb (isWhiteSpace c)) (seg_text s)). split.
      - apply in_map_iff. exists s. split; [done|]. by apply list_elem_of_In.
      - apply filter_In. split; [by apply list_elem_of_In|]. by rewrite W. }
    rewrite <- E in Hin. by apply elem_of_nil in Hin.
  - intros Hall.
    destruct (YouTubeService.transcriptToText t) as [|c r] eqn:R; [done|]. exfalso.
    assert (W : isWhiteSpace c = false).
    { apply (trim_head (replaceWhiteSpaceRuns (join [SP] (map seg_text (content t))))).
      unfold YouTubeService.transcriptToText in R. by rewrite R. }
    assert (Hin : c ∈ List.filter (fun c => negb (isWhiteSpace c)) (c :: r)).
    { simpl. rewrite W. simpl. left. }
    rewrite E in Hin.
    apply list_elem_of_In, in_concat in Hin as (l & Hl & Hc).
    apply in_map_iff in Hl as (s & <- & Hs).
    apply filter_In in Hc as [Hc _].
    rewrite (Hall s c) in W; [done| |]; by apply list_elem_of_In.
Qed.

(** ** The tweet tool *)

(** X20: the answer of [generate_tweets_from_transcript] does not contain the
    transcript.  Two accepted calls with the same prompt, style and format,
    and the same [maxTweets] unless the format is [single], get the same
    envelope, whatever their transcripts. *)
Theorem tweet_envelope_ignores_transcript
    (rt : Runtime) (ys : YouTubeService.t) (ts : TypefullyService.t)
    (args args' : option value) (a a' : GenerateTweetsArgs) :
  GenerateTweetsSchema args = ZodOk a ->
  GenerateTweetsSchema args' = ZodOk a' ->
  arg_prompt a = arg_prompt a' ->
  arg_style a = arg_style a' ->
  arg_format a = arg_format a' ->
  arg_format a = Some single \/ arg_maxTweets a = arg_maxTweets a' ->
  fst (run (callTool rt ys ts (js "generate_tweets_from_transcript") args))
  = fst (run (callTool rt ys ts (js "generate_tweets_from_transcript") args')).
Proof.
  intros Ha Ha' Hp Hs Hf Hm. unfold run.
  rewrite (callTool_returned _ _ _ _ _ _ _ _ (dispatch_tweets rt ys ts args a [] Ha)).
  rewrite (callTool_returned _ _ _ _ _ _ _ _ (dispatch_tweets rt ys ts args' a' [] Ha')).
  cbn [fst]. do 3 f_equal.
  destruct a as [t p m s f], a' as [t' p' m' s' f'].
  cbn [arg_prompt arg_style arg_format arg_maxTweets arg_transcript] in *.
  subst p' s' f'.
  destruct Hm as [->| ->]; reflexivity.
Qed.

Lemma tweet_envelope_ignores_transcript_witness :
  fst (run (callTool (Scenario.runtime Scenario.unreachable Scenario.unreachable)
              Scenario.youtube Scenario.typefully
              (js "generate_tweets_from_transcript")
              (Scenario.object [ (js "transcript", VStr (js "first"));
                                 (js "prompt", VStr (js "p"));
                                 (js "format", VStr (js "single"));
                                 (js "maxTweets", VNum 3) ])))
  = fst (run (callTool (Scenario.runtime Scenario.unreachable Scenario.unreachable)
                Scenario.youtube Scenario.typefully
                (js "generate_tweets_from_transcript")
                (Scenario.object [ (js "transcript", VStr (js "second"));
                                   (js "prompt", VStr (js "p"));
                                   (js "format", VStr (js "single")) ]))).
Proof.
  apply (tweet_envelope_ignores_transcript _ _ _ _ _
           {| arg_transcript := js "first"; arg_prompt := js "p";
              arg_maxTweets := Some 3%Q; arg_style := None; arg_format := Some single |}
           {| arg_transcript := js "second"; arg_prompt := js "p";
              arg_maxTweets := None; arg_style := None; arg_format := Some single |}).
  - vm_compute. reflexivity.
  - vm_compute. reflexivity.
  - reflexivity.
  - reflexivity.
  - reflexivity.
  - by left.
Defined.

Lemma includes_pair (x y rest : jsstring) :
  includes (x ++ y) (x ++ y ++ rest) = true.
Proof. rewrite app_assoc. apply includes_here. Qed.

Ltac find_pair :=
  rewrite <- ?app_assoc; repeat first [ apply includes_pair | apply includes_skip ].

(** X21: an accepted call of the tweet tool is answered by an unflagged
    envelope that shows the prompt, the style (by default [engaging]) with
    its guideline, and always the guidelines asking for emojis and for calls
    to action: the dispatcher switches both on and the arguments cannot
    switch them off. *)
Theorem tweet_success_envelope
    (rt : Runtime) (ys : YouTubeService.t) (ts : TypefullyService.t)
    (args : option value) (a : GenerateTweetsArgs) :
  GenerateTweetsSchema args = ZodOk a ->
  exists t : jsstring,
    fst (run (callTool rt ys ts (js "generate_tweets_from_transcript") args))
    = Normal {| blocks := [textBlock t]; isError := None |}
    /\ includes (js "**User Prompt:** " ++ arg_prompt a) t = true
    /\ includes (js "**Style:** " ++ styleString (default engaging (arg_style a))) t = true
    /\ includes (js "STYLE: " ++ styleGuidelines (default engaging (arg_style a))) t = true
    /\ includes (js "EMOJIS: "
                 ++ js "Include relevant emojis to enhance engagement and visual appeal, but use them strategically.")
         t = true
    /\ includes (js "ENGAGEMENT: "
                 ++ js "Include calls-to-action that encourage replies, engagement, and discussion.")
         t = true.
Proof.
  intros Ha. eexists. split.
  - unfold run.
    rewrite (callTool_returned _ _ _ _ _ _ _ _ (dispatch_tweets rt ys ts args a [] Ha)).
    reflexivity.
  - rewrite generateTweetContext_fields. unfold tweetContextText.
    cbn [TweetGenerationService.style systemPrompt instructions maxTweets
         tweetOptions opt_style opt_format opt_maxTweets opt_includeEmojis
         opt_includeCallToAction].
    unfold generatePromptAndInstructions. cbn [fst snd].
    change (default true (Some true)) with true. cbv iota.
    repeat split.
    + find_labelled.
    + find_labelled.
    + find_pair.
    + find_pair.
    + find_pair.
Qed.

Lemma tweet_success_envelope_witness :
  exists t : jsstring,
    fst (run (callTool (Scenario.runtime Scenario.unreachable Scenario.unreachable)
                Scenario.youtube Scenario.typefully
                (js "generate_tweets_from_transcript") Scenario.singleTweetArgs))
    = Normal {| blocks := [textBlock t]; isError := None |}
    /\ includes (js "**Style:** engaging") t = true
    /\ includes (js "EMOJIS: Include relevant emojis") t = true.
Proof.
  destruct (tweet_success_envelope
              (Scenario.runtime Scenario.unreachable Scenario.unreachable)
              Scenario.youtube Scenario.typefully Scenario.singleTweetArgs
              {| arg_transcript := js "t"; arg_prompt := js "p";
                 arg_maxTweets := Some 7%Q; arg_style := None;
                 arg_format := Some single |})
    as (t & Hrun & _ & Hs & _ & He & _).
  - vm_compute. reflexivity.
  - exists t. split; [exact Hrun|]. split; [exact Hs|].
    revert He. injection Hrun as <-. by vm_compute.
Defined.

(** ** Cleaning, rendering and sanitizing *)

Lemma isWordChar_not_blank (c : N) : isWordChar c = true -> isWhiteSpace c = false.
Proof.
  intros W. apply not_true_is_false. intros B.
  unfold isWordChar, isWhiteSpace, code_in in *.
  repeat (apply orb_true_iff in W as [W|W]);
    repeat (apply orb_true_iff in B as [B|B]);
    repeat match goal with
           | H : _ && _ = true |- _ => apply andb_true_iff in H as [? ?]
           | H : (_ <=? _) = true |- _ => apply N.leb_le in H
           | H : (_ =? _) = true |- _ => apply N.eqb_eq in H
           end; lia.
Qed.

Lemma replaceWhiteSpaceRuns_words (a s : jsstring) :
  forallb isWordChar a = true ->
  replaceWhiteSpaceRuns (a ++ s) = a ++ replaceWhiteSpaceRuns s.
Proof.
  induction a as [|c a IH]; [done|].
  intros [Hc Ha]%andb_true_iff.
  change ((c :: a) ++ s) with (c :: (a ++ s)). cbn [replaceWhiteSpaceRuns].
  rewrite (isWordChar_not_blank c) by done. simpl. by rewrite IH.
Qed.

Lemma replaceWhiteSpaceRuns_word (a : jsstring) :
  forallb isWordChar a = true -> replaceWhiteSpaceRuns a = a.
Proof.
  intros H. rewrite <- (app_nil_r a) at 1.
  rewrite replaceWhiteSpaceRuns_words by done. apply app_nil_r.
Qed.

Lemma replaceWhiteSpaceRuns_other (c : N) (s : jsstring) :
  isWhiteSpace c = false ->
  replaceWhiteSpaceRuns (c :: s) = c :: replaceWhiteSpaceRuns s.
Proof. intros H. cbn [replaceWhiteSpaceRuns]. by rewrite H. Qed.

Lemma replaceWhiteSpaceRuns_blank (c d : N) (s : jsstring) :
  isWhiteSpace c = true -> isWhiteSpace d = false ->
  replaceWhiteSpaceRuns (c :: d :: s) = SP :: replaceWhiteSpaceRuns (d :: s).
Proof. intros Hc Hd. cbn [replaceWhiteSpaceRuns]. by rewrite Hc, Hd. Qed.

Lemma filter_words (a : jsstring) :
  forallb isWordChar a = true -> List.filter isKept a = a.
Proof.
  induction a as [|c a IH]; [done|]. intros [Hc Ha]%andb_true_iff.
  simpl. unfold isKept at 1. rewrite Hc. simpl. by rewrite IH.
Qed.

(** X22: the cleaned transcript can hold two spaces in a row.  When a deleted
    character stands alone between two words, the blanks on its two sides
    both stay, because runs of blanks are collapsed before the deletion. *)
Theorem cleanTranscript_leaves_double_space (a b : jsstring) (c : N) :
  a <> [] -> b <> [] ->
  forallb isWordChar a = true -> forallb isWordChar b = true ->
  isKept c = false ->
  cleanTranscript (a ++ [SP; c; SP] ++ b) = a ++ [SP; SP] ++ b.
Proof.
  intros Ha Hb Wa Wb Hc. unfold cleanTranscript.
  assert (Bc : isWhiteSpace c = false).
  { unfold isKept in Hc. destruct (isWhiteSpace c); [|done].
    by rewrite orb_true_r in Hc. }
  destruct b as [|d b]; [done|]. apply andb_true_iff in Wb as Wb'.
  destruct Wb' as [Wd _].
  assert (R : replaceWhiteSpaceRuns (a ++ [SP; c; SP] ++ d :: b)
              = a ++ [SP; c; SP] ++ d :: b).
  { rewrite replaceWhiteSpaceRuns_words by done. f_equal.
    change ([SP; c; SP] ++ d :: b) with (SP :: c :: SP :: d :: b).
    rewrite (replaceWhiteSpaceRuns_blank SP c) by done.
    rewrite (replaceWhiteSpaceRuns_other c) by done.
    rewrite (replaceWhiteSpaceRuns_blank SP d)
      by (done || by apply isWordChar_not_blank).
    by rewrite (replaceWhiteSpaceRuns_word (d :: b)). }
  rewrite R, !List.filter_app, (filter_words a), (filter_words (d :: b)) by done.
  cbn [List.filter]. rewrite Hc.
  assert (isKept SP = true) as -> by reflexivity.
  destruct a as [|e a]; [done|]. apply andb_true_iff in Wa as [We _].
  destruct (last (d :: b)) as [z|] eqn:El; [|by apply last_None in El].
  rewrite <- (app_nil_r ((e :: a) ++ [SP; SP] ++ d :: b)) at 1.
  rewrite (trim_fixed_prefix _ [] e z).
  - change (trimEnd []) with (@nil N). by rewrite !app_nil_r.
  - done.
  - by apply isWordChar_not_blank.
  - by rewrite !last_app, El.
  - apply isWordChar_not_blank. rewrite forallb_forall in Wb. apply Wb.
    apply last_Some in El as [b' Eb]. rewrite Eb. apply in_or_app. right. by left.
Qed.

Lemma cleanTranscript_leaves_double_space_witness :
  cleanTranscript (js "price" ++ [SP; 58; SP] ++ js "low") = js "price" ++ [SP; SP] ++ js "low".
Proof.
  apply cleanTranscript_leaves_double_space; done.
Defined.

Lemma fold_digits_snoc (ds : jsstring) (d v : N) :
  fold_left (fun v d => 10 * v + (d - 48)) (ds ++ [d]) v
  = 10 * fold_left (fun v d => 10 * v + (d - 48)) ds v + (d - 48).
Proof. by rewrite fold_left_app. Qed.

Lemma digits_fuel_spec (fuel : nat) (n : N) (acc : jsstring) :
  (N.to_nat n < fuel)%nat ->
  exists ds,
    digits_fuel fuel n acc = ds ++ acc
    /\ ds <> []
    /\ Forall (fun d => 48 <= d <= 57) ds
    /\ fold_left (fun v d => 10 * v + (d - 48)) ds 0 = n
    /\ (head ds = Some 48 -> n = 0).
Proof.
  revert n acc. induction fuel as [|fuel IH]; intros n acc Hf; [lia|].
  cbn [digits_fuel].
  assert (Hm : n mod 10 < 10) by (by apply N.mod_lt).
  pose proof (N.div_mod n 10) as Hdm.
  set (q := n / 10) in *. set (r := n mod 10) in *.
  assert (Hn : n = 10 * q + r) by (by apply Hdm).
  clearbody q r. clear Hdm.
  destruct (q =? 0) eqn:E.
  - apply N.eqb_eq in E. exists [48 + r].
    split; [done|]. split; [done|]. split; [|split].
    + constructor; [lia|constructor].
    + cbn [fold_left]. lia.
    + cbn [head]. intros [= H]. lia.
  - apply N.eqb_neq in E.
    destruct (IH q ((48 + r) :: acc)) as (ds & E1 & E2 & E3 & E4 & E5); [lia|].
    exists (ds ++ [48 + r]).
    split; [by rewrite E1, <- app_assoc|].
    split; [by destruct ds|]. split; [|split].
    + apply Forall_app. split; [done|]. constructor; [lia|constructor].
    + rewrite fold_digits_snoc, E4. lia.
    + destruct ds as [|d ds]; [done|]. simpl. intros H. apply E5 in H. lia.
Qed.

(** X23: a count is rendered as its decimal numeral: the rendering of [n] is
    a non-empty string of digits whose value is [n], without a leading zero
    unless [n] is zero. *)
Theorem natToString_decimal (n : nat) :
  natToString n <> []
  /\ Forall (fun d => 48 <= d <= 57) (natToString n)
  /\ fold_left (fun v d => 10 * v + (d - 48)) (natToString n) 0 = N.of_nat n
  /\ (head (natToString n) = Some 48 -> n = 0%nat).
Proof.
  unfold natToString.
  destruct (digits_fuel_spec (S n) (N.of_nat n) []) as (ds & E1 & E2 & E3 & E4 & E5);
    [lia|].
  rewrite E1, app_nil_r. split; [done|]. split; [done|]. split; [done|].
  intros H. apply E5 in H. lia.
Qed.

Lemma trim_trimmed (s : jsstring) :
  (forall c, head s = Some c -> isWhiteSpace c = false) ->
  (forall c, last s = Some c -> isWhiteSpace c = false) ->
  trim s = s.
Proof.
  intros Hh Hl. destruct s as [|c s]; [done|].
  destruct (last (c :: s)) as [z|] eqn:El; [|by apply last_None in El].
  rewrite <- (app_nil_r (c :: s)) at 1.
  rewrite (trim_fixed_prefix (c :: s) [] c z); [apply app_nil_r|done|by apply Hh|done|by apply Hl].
Qed.

Lemma trim_length (s : jsstring) : (length (trim s) <= length s)%nat.
Proof.
  destruct (trim_infix s) as (w & v & E & _).
  rewrite E at 2. rewrite !length_app. lia.
Qed.

(** X24: sanitizing is idempotent and never lengthens a message: a message
    that has been through the outer [catch] comes out of it unchanged. *)
Theorem sanitizedError_idempotent (error : thrown) :
  sanitizedError (ErrorObject (sanitizedError error)) = sanitizedError error
  /\ forall message,
       (length (sanitizedError (ErrorObject message)) <= length message)%nat.
Proof.
  split.
  - destruct error as [message|]; [|reflexivity].
    cbn [sanitizedError].
    rewrite (replaceControlChars_id (trim (replaceControlChars message))).
    + apply trim_trimmed; [apply trim_head|apply trim_last].
    + intros c Hc%trim_sub. by apply replaceControlChars_clean in Hc.
  - intros message. cbn [sanitizedError].
    etrans; [apply trim_length|]. unfold replaceControlChars. by rewrite length_map.
Qed.

(** ** Success and failure texts, in general *)

Lemma includes_labelled_block (label x y z rest : jsstring) :
  includes (label ++ x ++ y ++ z) ((SP :: label) ++ x ++ y ++ z ++ rest) = true.
Proof.
  change ((SP :: label) ++ x ++ y ++ z ++ rest)
    with ([SP] ++ label ++ x ++ y ++ z ++ rest).
  apply includes_skip.
  assert (E : label ++ x ++ y ++ z ++ rest = (label ++ x ++ y ++ z) ++ rest)
    by (by rewrite <- !app_assoc).
  rewrite E. apply includes_here.
Qed.

(** X25: whenever the transcript is fetched, the envelope is not flagged and
    its text shows the identifier that [extractVideoId] returned, the
    language of the response, the number of segments in decimal and the
    readable text. *)
Theorem transcript_success_envelope
    (rt : Runtime) (ys : YouTubeService.t) (ts : TypefullyService.t)
    (args : option value) (a : YouTubeTranscriptArgs) (videoId : jsstring)
    (t : TranscriptResponse) :
  YouTubeTranscriptSchema args = ZodOk a ->
  YouTubeService.extractVideoId (videoUrl a) = Normal videoId ->
  axios_get_transcript rt (YouTubeService.apiKey ys) videoId = AxiosData t ->
  exists text : jsstring,
    run (callTool rt ys ts (js "get_youtube_transcript") args)
    = (Normal {| blocks := [textBlock text]; isError := None |},
       [ Call_extractVideoId (videoUrl a); Call_getTranscript videoId;
         Call_transcriptToText t ])
    /\ includes (js "**Video ID:** " ++ videoId) text = true
    /\ includes (js "**Language:** " ++ lang t) text = true
    /\ includes (js "**Total Segments:** " ++ natToString (length (content t))) text = true
    /\ includes (js "**Full Transcript:**" ++ [LF; LF]
                 ++ YouTubeService.transcriptToText t ++ [LF; LF]) text = true.
Proof.
  intros Ha Hid Hget.
  exists (transcriptText videoId t (YouTubeService.transcriptToText t)). split.
  - unfold run. apply callTool_returned.
    rewrite (dispatch_transcript _ _ _ _ a _ Ha), Hid.
    unfold YouTubeService.getTranscript. by rewrite Hget.
  - unfold transcriptText.
    split; [find_labelled|]. split; [find_labelled|]. split; [find_labelled|].
    repeat first [ apply includes_labelled_block | apply includes_skip ].
Qed.

Lemma transcript_success_envelope_witness :
  exists text : jsstring,
    run (callTool (Scenario.runtime (AxiosData Scenario.helloWorld) Scenario.unreachable)
           Scenario.youtube Scenario.typefully
           (js "get_youtube_transcript") Scenario.shortUrlArgs)
    = (Normal {| blocks := [textBlock text]; isError := None |},
       [ Call_extractVideoId (js "https://youtu.be/abc12345678");
         Call_getTranscript (js "abc12345678");
         Call_transcriptToText Scenario.helloWorld ])
    /\ includes (js "**Total Segments:** 12") text = true
    /\ includes (js "**Language:** en") text = true.
Proof.
  destruct (transcript_success_envelope
              (Scenario.runtime (AxiosData Scenario.helloWorld) Scenario.unreachable)
              Scenario.youtube Scenario.typefully Scenario.shortUrlArgs
              {| videoUrl := js "https://youtu.be/abc12345678" |}
              (js "abc12345678") Scenario.helloWorld)
    as (text & Hrun & _ & Hl & Hn & _).
  - vm_compute. reflexivity.
  - vm_compute. reflexivity.
  - reflexivity.
  - exists text. split; [exact Hrun|]. split; [exact Hn | exact Hl].
Defined.


